(** * Shopify fulfillment lookup: [src/lib/shopify/fulfillment.js]

    A shallow embedding of the two exported functions
    [getFulfillmentOrders] and [getFulfillments], together with the part
    of the JavaScript semantics they rely on: property reads that throw
    on [null]/[undefined], truthiness, [Array.prototype.map],
    [String.prototype.match] with the regular expression [/\((\d+)\)/],
    [parseInt(_, 10)], and [try]/[catch].

    Conventions of the model.
    - A JavaScript value is a [value].  Objects are association lists in
      key order, read with first-match lookup; the values that reach this
      code come from [JSON.parse], so they hold no functions.
    - Numbers are identified with their mathematical value, a [Z].
      Every number this code inspects (the status codes 0, 401, 403, 500,
      200 and array lengths) is an integer that a double holds exactly.
    - A string is a Rocq [string], one character per code unit; the
      regular expression tells apart the two parentheses and the ten
      ASCII digits only.
    - An [async] function is modelled by its [completion]: [Normal v] is
      a promise fulfilled with [v], [Abrupt e] a promise rejected with
      [e].  The collaborator [callShopifyAdmin] is a function argument.
    - The wording of the engine's own [TypeError] messages is V8's
      (Node.js). *)

From Stdlib Require Import ZArith List Bool Ascii String Lia.
From Stdlib Require Import Numbers.DecimalString Numbers.DecimalPos.
Import ListNotations.

Set Warnings "-register-all".

#[local] Open Scope string_scope.
#[local] Open Scope Z_scope.

(* ------------------------------------------------------------------ *)
(** ** JavaScript values *)

Inductive value : Type :=
| VUndefined
| VNull
| VBool (b : bool)
| VNum (n : Z)
| VStr (s : string)
| VArr (elems : list value)
| VObj (fields : list (string * value)).

(** What a [throw] carries: an [Error] instance (of any subclass) with
    its string [message], or any other value. *)
Inductive thrown : Type :=
| JsError (message : string)
| JsValue (v : value).

(** The result of evaluating an expression, or of awaiting a promise. *)
Inductive completion (A : Type) : Type :=
| Normal (a : A)
| Abrupt (e : thrown).

Arguments Normal {A} a.
Arguments Abrupt {A} e.

Definition bind {A B : Type} (c : completion A) (k : A -> completion B)
  : completion B :=
  match c with
  | Normal a => k a
  | Abrupt e => Abrupt e
  end.

(** [try { body } catch (error) { handler }] *)
Definition try_catch {A : Type} (body : completion A)
    (handler : thrown -> completion A) : completion A :=
  match body with
  | Normal a => Normal a
  | Abrupt e => handler e
  end.

Declare Scope js_scope.
Delimit Scope js_scope with js.
Notation "x <- c ;; k" := (bind c (fun x => k))
  (at level 61, c at next level, right associativity) : js_scope.
#[local] Open Scope js_scope.

(** Truthiness (ToBoolean). *)
Definition truthy (v : value) : bool :=
  match v with
  | VUndefined | VNull => false
  | VBool b => b
  | VNum n => negb (n =? 0)
  | VStr s => negb (String.eqb s "")
  | VArr _ | VObj _ => true
  end.

(** [a || b] on values; [b] is only used when [a] is falsy. *)
Definition or_else (a b : value) : value :=
  if truthy a then a else b.

Fixpoint lookup (k : string) (fields : list (string * value))
  : option value :=
  match fields with
  | [] => None
  | (k', v) :: rest => if String.eqb k k' then Some v else lookup k rest
  end.

(** The value of [v.k] for a [v] that is neither [null] nor
    [undefined]: an own field of an object, the [length] of an array or
    string, and [undefined] otherwise.  The keys this code reads
    ([fulfillments], [order], [id], [name], [length], [message]) are on
    no prototype of a JSON value other than [length]. *)
Definition prop (v : value) (k : string) : value :=
  match v with
  | VObj fields =>
      match lookup k fields with
      | Some x => x
      | None => VUndefined
      end
  | VArr elems =>
      if String.eqb k "length" then VNum (Z.of_nat (List.length elems))
      else VUndefined
  | VStr s =>
      if String.eqb k "length" then VNum (Z.of_nat (String.length s))
      else VUndefined
  | _ => VUndefined
  end.

(** The property read [v.k]: a [TypeError] on [null] and [undefined]. *)
Definition get (v : value) (k : string) : completion value :=
  match v with
  | VUndefined =>
      Abrupt (JsError
        ("Cannot read properties of undefined (reading '" ++ k ++ "')"))
  | VNull =>
      Abrupt (JsError
        ("Cannot read properties of null (reading '" ++ k ++ "')"))
  | _ => Normal (prop v k)
  end.

Fixpoint map_elems (f : value -> completion value) (l : list value)
  : completion (list value) :=
  match l with
  | [] => Normal []
  | x :: rest =>
      y <- f x ;;
      ys <- map_elems f rest ;;
      Normal (y :: ys)
  end.

(** The method call [v.map(f)], where [expr] is the source text of the
    receiver: only an array has a callable [map]. *)
Definition call_map (expr : string) (v : value)
    (f : value -> completion value) : completion value :=
  match v with
  | VArr elems => ys <- map_elems f elems ;; Normal (VArr ys)
  | VUndefined | VNull => _ <- get v "map" ;; Normal VUndefined
  | _ => Abrupt (JsError (expr ++ ".map is not a function"))
  end.

(* ------------------------------------------------------------------ *)
(** ** [/\((\d+)\)/] and [parseInt] *)

Definition is_digit (c : ascii) : bool :=
  (48 <=? nat_of_ascii c)%nat && (nat_of_ascii c <=? 57)%nat.

(** The longest run of digits at the front of [s], and what follows. *)
Fixpoint span_digits (s : string) : string * string :=
  match s with
  | EmptyString => (EmptyString, EmptyString)
  | String c rest =>
      if is_digit c then
        let (ds, tl) := span_digits rest in (String c ds, tl)
      else (EmptyString, s)
  end.

(** An attempt to match [\((\d+)\)] at the start of [s]; the result is
    capture group 1.  [\d+] is greedy, and giving digits back cannot
    help: the character after a shorter run is a digit, not [")"]. *)
Definition match_here (s : string) : option string :=
  match s with
  | String "("%char rest =>
      match span_digits rest with
      | (String d ds, String ")"%char _) => Some (String d ds)
      | _ => None
      end
  | _ => None
  end.

(** [s.match(/\((\d+)\)/)]: the attempt is made at each start position
    from the left, and the first success wins.  [None] is [null]; on
    success the model keeps [statusMatch[1]] only. *)
Fixpoint regex_match (s : string) : option string :=
  match match_here s with
  | Some ds => Some ds
  | None =>
      match s with
      | EmptyString => None
      | String _ rest => regex_match rest
      end
  end.

Definition digit_value (c : ascii) : Z :=
  Z.of_nat (nat_of_ascii c) - 48.

Fixpoint parse_digits (acc : Z) (s : string) : Z :=
  match s with
  | EmptyString => acc
  | String c rest =>
      if is_digit c then parse_digits (10 * acc + digit_value c) rest
      else acc
  end.

(** [parseInt(s, 10)] on a string that starts with a digit, which is
    what capture group 1 always is: the value of the leading digits.
    JavaScript rounds a value above 2^53 to the nearest double; that
    changes none of the comparisons with 0, 401 and 403. *)
Definition parseInt (s : string) : Z := parse_digits 0 s.

(** The method call [m.match(/\((\d+)\)/)] on the value [m] of
    [error.message]. *)
Definition call_match (m : value) : completion (option string) :=
  match m with
  | VStr s => Normal (regex_match s)
  | VUndefined | VNull => _ <- get m "match" ;; Normal None
  | _ => Abrupt (JsError "error.message.match is not a function")
  end.

(** [error.message] for the binding of a [catch] clause. *)
Definition error_message (error : thrown) : completion value :=
  match error with
  | JsError message => Normal (VStr message)
  | JsValue v => get v "message"
  end.

(** [httpStatus], a number or [null], as a value. *)
Definition status_value (httpStatus : option Z) : value :=
  match httpStatus with
  | Some n => VNum n
  | None => VNull
  end.

(** [httpStatus === n] for a number literal [n]. *)
Definition status_is (httpStatus : option Z) (n : Z) : bool :=
  match httpStatus with
  | Some m => m =? n
  | None => false
  end.

(* ------------------------------------------------------------------ *)
(** ** The collaborator and its argument *)

(** [orderId] is a string or a number. *)
Inductive order_id : Type :=
| IdStr (s : string)
| IdNum (n : Z).

(** [`${orderId}`]; a number is an integer below 10^21, which
    JavaScript prints in plain decimal. *)
Definition id_text (orderId : order_id) : string :=
  match orderId with
  | IdStr s => s
  | IdNum n => NilZero.string_of_int (Z.to_int n)
  end.

(** [callShopifyAdmin(path)], awaited. *)
Definition admin_client : Type := string -> completion value.

(* ------------------------------------------------------------------ *)
(** ** The two exported functions *)

Definition getFulfillmentOrders (callShopifyAdmin : admin_client)
    (orderId : order_id) : completion value :=
  try_catch
    (response <-
       callShopifyAdmin ("/orders/" ++ id_text orderId ++ "/fulfillments.json") ;;
     f1 <- get response "fulfillments" ;;
     let fulfillments := or_else f1 (VArr []) in
     f2 <- get response "fulfillments" ;;
     count <-
       (if truthy f2 then
          f <- get response "fulfillments" ;; get f "length"
        else Normal (VNum 0)) ;;
     f3 <- get response "fulfillments" ;;
     fulfillmentIds <-
       (if truthy f3 then
          f <- get response "fulfillments" ;;
          call_map "response.fulfillments" f (fun f => get f "id")
        else Normal (VArr [])) ;;
     Normal (VObj
       [ ("success", VBool true);
         ("httpStatus", VNum 200);
         ("fulfillments", fulfillments);
         ("count", count);
         ("fulfillmentIds", fulfillmentIds);
         ("rawResponse", response) ]))
    (fun error =>
       m <- error_message error ;;
       statusMatch <- call_match m ;;
       let httpStatus :=
         match statusMatch with
         | Some digits => Some (parseInt digits)
         | None => None
         end in
       if status_is httpStatus 401 || status_is httpStatus 403 then
         message <- error_message error ;;
         Normal (VObj
           [ ("success", VBool false);
             ("httpStatus", status_value httpStatus);
             ("error", VStr "SHOPIFY_ADMIN_AUTH_ERROR");
             ("message", message);
             ("fulfillments", VArr []);
             ("count", VNum 0);
             ("fulfillmentIds", VArr []) ])
       else
         message <- error_message error ;;
         Normal (VObj
           [ ("success", VBool false);
             ("httpStatus", or_else (status_value httpStatus) (VNum 500));
             ("error", VStr "SHOPIFY_FULFILLMENT_FETCH_ERROR");
             ("message", message);
             ("fulfillments", VArr []);
             ("count", VNum 0);
             ("fulfillmentIds", VArr []) ])).

Definition getFulfillments (callShopifyAdmin : admin_client)
    (orderId : order_id) : completion value :=
  try_catch
    (response <- callShopifyAdmin ("/orders/" ++ id_text orderId ++ ".json") ;;
     o <- get response "order" ;;
     let order := or_else o (VObj []) in
     f <- get order "fulfillments" ;;
     let fulfillments := or_else f (VArr []) in
     count <- get fulfillments "length" ;;
     fulfillmentIds <-
       call_map "fulfillments" fulfillments (fun f => get f "id") ;;
     orderId' <- get order "id" ;;
     orderName <- get order "name" ;;
     Normal (VObj
       [ ("success", VBool true);
         ("httpStatus", VNum 200);
         ("fulfillments", fulfillments);
         ("count", count);
         ("fulfillmentIds", fulfillmentIds);
         ("orderId", orderId');
         ("orderName", orderName);
         ("rawResponse", response) ]))
    (fun error =>
       m <- error_message error ;;
       statusMatch <- call_match m ;;
       let httpStatus :=
         match statusMatch with
         | Some digits => Some (parseInt digits)
         | None => None
         end in
       if status_is httpStatus 401 || status_is httpStatus 403 then
         message <- error_message error ;;
         Normal (VObj
           [ ("success", VBool false);
             ("httpStatus", status_value httpStatus);
             ("error", VStr "SHOPIFY_ADMIN_AUTH_ERROR");
             ("message", message);
             ("fulfillments", VArr []);
             ("count", VNum 0);
             ("fulfillmentIds", VArr []) ])
       else
         message <- error_message error ;;
         Normal (VObj
           [ ("success", VBool false);
             ("httpStatus", or_else (status_value httpStatus) (VNum 500));
             ("error", VStr "SHOPIFY_FULFILLMENT_FETCH_ERROR");
             ("message", message);
             ("fulfillments", VArr []);
             ("count", VNum 0);
             ("fulfillmentIds", VArr []) ])).

(* ------------------------------------------------------------------ *)
(** ** What the claims speak of *)

Fixpoint all_digits (s : string) : bool :=
  match s with
  | EmptyString => true
  | String c rest => is_digit c && all_digits rest
  end.

(** [ds] is a decimal number: one digit or more. *)
Definition decimal (ds : string) : Prop :=
  ds <> "" /\ all_digits ds = true.

(** [s] contains a parenthesized decimal number. *)
Definition has_paren_number (s : string) : Prop :=
  exists pre ds post, s = pre ++ "(" ++ ds ++ ")" ++ post /\ decimal ds.

(** [ds] is the first parenthesized decimal number of [s], from the
    left: nothing before its opening parenthesis holds one. *)
Definition first_paren_number (s ds : string) : Prop :=
  exists pre post,
    s = pre ++ "(" ++ ds ++ ")" ++ post /\ decimal ds /\
    ~ has_paren_number pre.

Definition nullish (v : value) : bool :=
  match v with
  | VUndefined | VNull => true
  | _ => false
  end.

(** The two kinds of result object, as the source writes them. *)
Definition failure_result (httpStatus : Z) (error message : string)
  : value :=
  VObj
    [ ("success", VBool false);
      ("httpStatus", VNum httpStatus);
      ("error", VStr error);
      ("message", VStr message);
      ("fulfillments", VArr []);
      ("count", VNum 0);
      ("fulfillmentIds", VArr []) ].

(** A collaborator that answers every path with the same outcome. *)
Definition always (c : completion value) : admin_client := fun _ => c.

(** The two entry points, the path each one requests, and its call. *)
Inductive entry_point : Type :=
| GetFulfillmentOrders
| GetFulfillments.

Definition request_path (f : entry_point) (orderId : order_id) : string :=
  match f with
  | GetFulfillmentOrders =>
      "/orders/" ++ id_text orderId ++ "/fulfillments.json"
  | GetFulfillments => "/orders/" ++ id_text orderId ++ ".json"
  end.

Definition invoke (f : entry_point)
  : admin_client -> order_id -> completion value :=
  match f with
  | GetFulfillmentOrders => getFulfillmentOrders
  | GetFulfillments => getFulfillments
  end.

(** The [catch] clause in one expression: what a failure with message
    [msg] is turned into (shown below for each function). *)
Definition failure_for (msg : string) : value :=
  match regex_match msg with
  | Some ds =>
      let n := parseInt ds in
      if (n =? 401) || (n =? 403) then
        failure_result n "SHOPIFY_ADMIN_AUTH_ERROR" msg
      else
        failure_result (if n =? 0 then 500 else n)
          "SHOPIFY_FULFILLMENT_FETCH_ERROR" msg
  | None => failure_result 500 "SHOPIFY_FULFILLMENT_FETCH_ERROR" msg
  end.

(** A completion that, when abrupt, carries an [Error] with a message. *)
Definition only_errors {A : Type} (c : completion A) : Prop :=
  match c with
  | Abrupt (JsValue _) => False
  | _ => True
  end.

(** The [fulfillments] field an entry point reads: of the response
    object, or of the object in its [order] field. *)
Definition fulfillments_field (f : entry_point) (response : value)
  : option value :=
  match f, response with
  | GetFulfillmentOrders, VObj fs => lookup "fulfillments" fs
  | GetFulfillments, VObj fs =>
      match lookup "order" fs with
      | Some (VObj ofs) => lookup "fulfillments" ofs
      | _ => None
      end
  | _, _ => None
  end.

Definition not_null (f : value) : bool := negb (nullish f).

Definition null_read_message : string :=
  "Cannot read properties of null (reading 'id')".

Definition undefined_read_message : string :=
  "Cannot read properties of undefined (reading 'id')".

(** The value an entry point takes for the list, before [|| []]:
    [response.fulfillments], or [(response.order || {}).fulfillments]. *)
Definition listed (f : entry_point) (response : value) : value :=
  match f with
  | GetFulfillmentOrders => prop response "fulfillments"
  | GetFulfillments =>
      prop (or_else (prop response "order") (VObj [])) "fulfillments"
  end.

(** The success object of an entry point for the list [l]. *)
Definition success_result (f : entry_point) (response : value)
    (l : list value) : value :=
  match f with
  | GetFulfillmentOrders =>
      VObj
        [ ("success", VBool true);
          ("httpStatus", VNum 200);
          ("fulfillments", VArr l);
          ("count", VNum (Z.of_nat (List.length l)));
          ("fulfillmentIds", VArr (map (fun x => prop x "id") l));
          ("rawResponse", response) ]
  | GetFulfillments =>
      VObj
        [ ("success", VBool true);
          ("httpStatus", VNum 200);
          ("fulfillments", VArr l);
          ("count", VNum (Z.of_nat (List.length l)));
          ("fulfillmentIds", VArr (map (fun x => prop x "id") l));
          ("orderId", prop (prop response "order") "id");
          ("orderName", prop (prop response "order") "name");
          ("rawResponse", response) ]
  end.

(** The source text of the receiver of [.map] in each function. *)
Definition receiver_text (f : entry_point) : string :=
  match f with
  | GetFulfillmentOrders => "response.fulfillments"
  | GetFulfillments => "fulfillments"
  end.

(** What is known of the message [m] of the [TypeError] that a response
    raises inside the [try] block. *)
Definition try_block_message (f : entry_point) (response : value)
    (m : string) : Prop :=
  (forall l, listed f response = VArr l ->
     m = null_read_message \/ m = undefined_read_message) /\
  (nullish response = false ->
   (forall l, listed f response <> VArr l) ->
   m = receiver_text f ++ ".map is not a function").

(* ------------------------------------------------------------------ *)
(** ** The regular expression *)

Section Regex.

Lemma span_digits_all (ds rest : string) :
  all_digits ds = true ->
  span_digits (ds ++ String ")" rest) = (ds, String ")" rest).
Proof.
  induction ds as [|c ds IH]; simpl; intros H.
  - reflexivity.
  - apply andb_true_iff in H as [Hc Hds].
    rewrite Hc, (IH Hds). reflexivity.
Qed.

Lemma span_digits_sound (s ds tl : string) :
  span_digits s = (ds, tl) -> s = ds ++ tl /\ all_digits ds = true.
Proof.
  revert ds tl; induction s as [|c s IH]; simpl; intros ds tl H.
  - inversion H; subst. split; reflexivity.
  - destruct (is_digit c) eqn:Hc.
    + destruct (span_digits s) as [ds' tl'] eqn:Hs.
      inversion H; subst; clear H.
      destruct (IH ds' tl eq_refl) as [-> Hd].
      simpl. rewrite Hc, Hd. split; reflexivity.
    + inversion H; subst. split; reflexivity.
Qed.

Lemma match_here_paren (ds post : string) :
  decimal ds -> match_here ("(" ++ ds ++ ")" ++ post) = Some ds.
Proof.
  intros [Hne Hd]. simpl.
  rewrite (span_digits_all ds post Hd).
  destruct ds; [contradiction|reflexivity].
Qed.

(** [match_here] with its character tests as boolean equalities. *)
Lemma match_here_eq (c : ascii) (s : string) :
  match_here (String c s) =
  if Ascii.eqb c "(" then
    match span_digits s with
    | (String d ds, String t tl) =>
        if Ascii.eqb t ")" then Some (String d ds) else None
    | _ => None
    end
  else None.
Proof.
  destruct (Ascii.eqb_spec c "("%char) as [->|Hc].
  - simpl. destruct (span_digits s) as [[|d ds] [|t tl]]; try reflexivity.
    destruct (Ascii.eqb_spec t ")"%char) as [->|Ht]; [reflexivity|].
    destruct t as [[] [] [] [] [] [] [] []]; try reflexivity.
    contradiction Ht; reflexivity.
  - destruct c as [[] [] [] [] [] [] [] []]; try reflexivity.
    contradiction Hc; reflexivity.
Qed.

Lemma match_here_sound (s ds : string) :
  match_here s = Some ds ->
  exists post, s = "(" ++ ds ++ ")" ++ post /\ decimal ds.
Proof.
  destruct s as [|c s]; [discriminate|].
  rewrite match_here_eq.
  destruct (Ascii.eqb_spec c "("%char) as [->|Hc]; [|discriminate].
  destruct (span_digits s) as [[|d ds'] [|t tl]] eqn:Hs; try discriminate.
  destruct (Ascii.eqb_spec t ")"%char) as [->|Ht]; [|discriminate].
  intros H; inversion H; subst; clear H.
  destruct (span_digits_sound _ _ _ Hs) as [-> Hd].
  exists tl. split; [reflexivity|]. split; [discriminate|exact Hd].
Qed.

(** A match at the start of [s] is still one when text follows. *)
Lemma match_here_app (s ds x : string) :
  match_here s = Some ds -> match_here (s ++ x) = Some ds.
Proof.
  intros H. destruct (match_here_sound _ _ H) as (post & -> & Hd).
  change (("(" ++ ds ++ ")" ++ post) ++ x)
    with (String "(" ((ds ++ String ")" post) ++ x)).
  replace ((ds ++ String ")" post) ++ x) with (ds ++ ")" ++ (post ++ x)).
  - apply (match_here_paren ds (post ++ x) Hd).
  - clear. induction ds as [|c ds IH]; simpl in *; [reflexivity|now f_equal].
Qed.

Lemma span_digits_app (s ds tl x : string) :
  span_digits s = (ds, tl) ->
  span_digits (s ++ String "(" x) = (ds, tl ++ String "(" x).
Proof.
  revert ds tl; induction s as [|c s IH]; simpl; intros ds tl H.
  - inversion H; subst. reflexivity.
  - destruct (is_digit c).
    + destruct (span_digits s) as [ds' tl'].
      inversion H; subst; clear H.
      rewrite (IH ds' tl eq_refl). reflexivity.
    + inversion H; subst. reflexivity.
Qed.

(** An attempt that fails at the start of a non-empty [s] still fails
    when an opening parenthesis follows [s]. *)
Lemma match_here_app_none (c : ascii) (s x : string) :
  match_here (String c s) = None ->
  match_here (String c s ++ String "(" x) = None.
Proof.
  change (String c s ++ String "(" x) with (String c (s ++ String "(" x)).
  rewrite !match_here_eq.
  destruct (Ascii.eqb c "("); [|reflexivity].
  destruct (span_digits s) as [ds tl] eqn:Hs.
  rewrite (span_digits_app _ _ _ x Hs).
  destruct ds as [|d ds]; [reflexivity|].
  destruct tl as [|t tl]; [reflexivity|exact (fun H => H)].
Qed.

Lemma regex_match_cons (c : ascii) (s : string) :
  regex_match (String c s) =
  match match_here (String c s) with
  | Some ds => Some ds
  | None => regex_match s
  end.
Proof. reflexivity. Qed.

(** The first parenthesized number wins: text that holds no match,
    followed by a parenthesized number, matches at that number,
    whatever comes after it. *)
Lemma regex_match_first (pre ds post : string) :
  regex_match pre = None -> decimal ds ->
  regex_match (pre ++ "(" ++ ds ++ ")" ++ post) = Some ds.
Proof.
  intros Hpre Hd. induction pre as [|c pre IH].
  - change ("" ++ "(" ++ ds ++ ")" ++ post) with ("(" ++ ds ++ ")" ++ post).
    change ("(" ++ ds ++ ")" ++ post) with (String "(" (ds ++ ")" ++ post)).
    rewrite regex_match_cons.
    change (String "(" (ds ++ ")" ++ post)) with ("(" ++ ds ++ ")" ++ post).
    now rewrite (match_here_paren ds post Hd).
  - rewrite regex_match_cons in Hpre.
    destruct (match_here (String c pre)) eqn:Hm; [discriminate|].
    change (String c pre ++ "(" ++ ds ++ ")" ++ post)
      with (String c (pre ++ "(" ++ ds ++ ")" ++ post)).
    rewrite regex_match_cons.
    change (String c (pre ++ "(" ++ ds ++ ")" ++ post))
      with (String c pre ++ String "(" (ds ++ ")" ++ post)).
    rewrite (match_here_app_none _ _ _ Hm).
    exact (IH Hpre).
Qed.

(** A match is at a parenthesized number with no match before it. *)
Lemma regex_match_sound (s ds : string) :
  regex_match s = Some ds ->
  exists pre post,
    s = pre ++ "(" ++ ds ++ ")" ++ post /\ decimal ds /\
    regex_match pre = None.
Proof.
  induction s as [|c s IH]; [discriminate|].
  rewrite regex_match_cons.
  destruct (match_here (String c s)) as [d|] eqn:Hm.
  - intros H; inversion H; subst; clear H.
    destruct (match_here_sound _ _ Hm) as (post & Hs & Hd).
    exists "", post. repeat split; try apply Hd. exact Hs.
  - intros H. destruct (IH H) as (pre & post & -> & Hd & Hpre).
    exists (String c pre), post. repeat split; try apply Hd.
    rewrite regex_match_cons.
    destruct (match_here (String c pre)) as [d|] eqn:Hm'; [|exact Hpre].
    apply (match_here_app _ _ ("(" ++ ds ++ ")" ++ post)) in Hm'.
    change (String c pre ++ "(" ++ ds ++ ")" ++ post)
      with (String c (pre ++ "(" ++ ds ++ ")" ++ post)) in Hm'.
    congruence.
Qed.

(** Text before a match does not make it go away. *)
Lemma regex_match_app_some (pre s ds : string) :
  regex_match s = Some ds -> regex_match (pre ++ s) <> None.
Proof.
  intros H. induction pre as [|c pre IH].
  - simpl. congruence.
  - change (String c pre ++ s) with (String c (pre ++ s)).
    rewrite regex_match_cons.
    destruct (match_here (String c (pre ++ s))); [discriminate|exact IH].
Qed.

(** [null] from [match] means: no parenthesized number anywhere. *)
Lemma regex_match_none_iff (s : string) :
  regex_match s = None <-> ~ has_paren_number s.
Proof.
  split.
  - intros H (pre & ds & post & -> & Hd).
    apply (regex_match_app_some pre ("(" ++ ds ++ ")" ++ post) ds); [|exact H].
    apply (regex_match_first "" ds post); [reflexivity|exact Hd].
  - intros H. destruct (regex_match s) as [ds|] eqn:Hm; [|reflexivity].
    exfalso. apply H.
    destruct (regex_match_sound _ _ Hm) as (pre & post & Hs & Hd & _).
    exists pre, ds, post. split; assumption.
Qed.

(** [match] captures exactly the first parenthesized number. *)
Lemma regex_match_some_iff (s ds : string) :
  regex_match s = Some ds <-> first_paren_number s ds.
Proof.
  split.
  - intros H.
    destruct (regex_match_sound _ _ H) as (pre & post & Hs & Hd & Hpre).
    exists pre, post. repeat split; try apply Hd; [exact Hs|].
    now apply regex_match_none_iff.
  - intros (pre & post & -> & Hd & Hpre).
    apply regex_match_first; [|exact Hd].
    now apply regex_match_none_iff.
Qed.

End Regex.

(* ------------------------------------------------------------------ *)
(** ** The [catch] clauses *)

Section Catch.

Variable callShopifyAdmin : admin_client.
Variable orderId : order_id.
Variable msg : string.

Lemma handler_orders :
  callShopifyAdmin (request_path GetFulfillmentOrders orderId)
    = Abrupt (JsError msg) ->
  getFulfillmentOrders callShopifyAdmin orderId = Normal (failure_for msg).
Proof.
  intros H. unfold getFulfillmentOrders, request_path in *.
  rewrite H. unfold failure_for, failure_result. cbn.
  destruct (regex_match msg) as [ds|]; cbn; [|reflexivity].
  destruct (parseInt ds =? 401), (parseInt ds =? 403); cbn;
    try reflexivity.
  unfold or_else; cbn. destruct (parseInt ds =? 0); reflexivity.
Qed.

Lemma handler_order :
  callShopifyAdmin (request_path GetFulfillments orderId)
    = Abrupt (JsError msg) ->
  getFulfillments callShopifyAdmin orderId = Normal (failure_for msg).
Proof.
  intros H. unfold getFulfillments, request_path in *.
  rewrite H. unfold failure_for, failure_result. cbn.
  destruct (regex_match msg) as [ds|]; cbn; [|reflexivity].
  destruct (parseInt ds =? 401), (parseInt ds =? 403); cbn;
    try reflexivity.
  unfold or_else; cbn. destruct (parseInt ds =? 0); reflexivity.
Qed.

Lemma handler_invoke (f : entry_point) :
  callShopifyAdmin (request_path f orderId) = Abrupt (JsError msg) ->
  invoke f callShopifyAdmin orderId = Normal (failure_for msg).
Proof.
  destruct f; [apply handler_orders|apply handler_order].
Qed.

End Catch.

(* ------------------------------------------------------------------ *)
(** ** Mapping [f => f.id] over an array *)

Lemma get_not_nullish (v : value) (k : string) :
  nullish v = false -> get v k = Normal (prop v k).
Proof. destruct v; simpl; intros H; try reflexivity; discriminate. Qed.

Lemma map_ids_ok (l : list value) :
  forallb not_null l = true ->
  map_elems (fun f => get f "id") l
    = Normal (map (fun f => prop f "id") l).
Proof.
  induction l as [|x l IH]; simpl; intros H; [reflexivity|].
  apply andb_true_iff in H as [Hx Hl].
  apply negb_true_iff in Hx.
  rewrite (get_not_nullish x "id" Hx). simpl.
  rewrite (IH Hl). reflexivity.
Qed.

Lemma map_ids_cases (l : list value) :
  map_elems (fun f => get f "id") l
    = Normal (map (fun f => prop f "id") l) \/
  map_elems (fun f => get f "id") l = Abrupt (JsError null_read_message) \/
  map_elems (fun f => get f "id") l
    = Abrupt (JsError undefined_read_message).
Proof.
  induction l as [|x l IH]; simpl; [left; reflexivity|].
  destruct x; simpl; auto;
    destruct IH as [-> | [-> | ->]]; simpl; auto.
Qed.

(* ------------------------------------------------------------------ *)
(** ** Successful responses *)

(** C1 (as amended).  When the collaborator returns an object whose
    [fulfillments] field (for [getFulfillments]: the [fulfillments] field
    of its [order] object) is an array of length N with no [null]
    element, the result has [success: true], [httpStatus: 200],
    [fulfillments] that very array, [count] N, [fulfillmentIds] the [id]
    of each element in order, and [rawResponse] the returned object. *)
Theorem success_of_array (f : entry_point) (callShopifyAdmin : admin_client)
    (orderId : order_id) (response : value) (l : list value) :
  callShopifyAdmin (request_path f orderId) = Normal response ->
  fulfillments_field f response = Some (VArr l) ->
  forallb not_null l = true ->
  exists r,
    invoke f callShopifyAdmin orderId = Normal (VObj r) /\
    lookup "success" r = Some (VBool true) /\
    lookup "httpStatus" r = Some (VNum 200) /\
    lookup "fulfillments" r = Some (VArr l) /\
    lookup "count" r = Some (VNum (Z.of_nat (List.length l))) /\
    lookup "fulfillmentIds" r
      = Some (VArr (map (fun x => prop x "id") l)) /\
    lookup "rawResponse" r = Some response.
Proof.
  intros Hcall Hf Hl.
  destruct f; unfold invoke, request_path in *; simpl in Hf.
  - destruct response as [| | | | | |fs]; try discriminate.
    unfold getFulfillmentOrders. rewrite Hcall. cbn. rewrite Hf. cbn.
    rewrite (map_ids_ok l Hl). cbn.
    eexists. split; [reflexivity|]. cbn. repeat split; reflexivity.
  - destruct response as [| | | | | |fs]; try discriminate.
    destruct (lookup "order" fs) as [[| | | | | |ofs]|] eqn:Ho;
      try discriminate.
    unfold getFulfillments. rewrite Hcall. cbn. rewrite Ho. cbn.
    rewrite Hf. cbn.
    rewrite (map_ids_ok l Hl). cbn.
    eexists. split; [reflexivity|]. cbn. repeat split; reflexivity.
Qed.

(** Witness for C1: the first scenario of the specification. *)
Lemma success_of_array_witness :
  exists r,
    getFulfillmentOrders
      (always (Normal (VObj [("fulfillments",
                 VArr [VObj [("id", VNum 1)]; VObj [("id", VNum 2)]])])))
      (IdNum 123) = Normal (VObj r) /\
    lookup "success" r = Some (VBool true) /\
    lookup "httpStatus" r = Some (VNum 200) /\
    lookup "fulfillments" r
      = Some (VArr [VObj [("id", VNum 1)]; VObj [("id", VNum 2)]]) /\
    lookup "count" r = Some (VNum 2) /\
    lookup "fulfillmentIds" r = Some (VArr [VNum 1; VNum 2]) /\
    lookup "rawResponse" r
      = Some (VObj [("fulfillments",
                 VArr [VObj [("id", VNum 1)]; VObj [("id", VNum 2)]])]).
Proof.
  apply (success_of_array GetFulfillmentOrders
           (always (Normal (VObj [("fulfillments",
              VArr [VObj [("id", VNum 1)]; VObj [("id", VNum 2)]])])))
           (IdNum 123) _
           [VObj [("id", VNum 1)]; VObj [("id", VNum 2)]]);
    reflexivity.
Defined.

(** Counterexample to C1 as stated: a [fulfillments] array of length 1
    whose element is [null].  Reading [f.id] throws inside the [try]
    block, the [catch] clause runs, and the result is a failure. *)
Lemma array_with_null_is_failure :
  getFulfillmentOrders
    (always (Normal (VObj [("fulfillments", VArr [VNull])]))) (IdNum 123)
  = Normal (failure_result 500 "SHOPIFY_FULFILLMENT_FETCH_ERROR"
              "Cannot read properties of null (reading 'id')") /\
  getFulfillments
    (always (Normal (VObj [("order",
               VObj [("fulfillments", VArr [VNull])])]))) (IdNum 123)
  = Normal (failure_result 500 "SHOPIFY_FULFILLMENT_FETCH_ERROR"
              "Cannot read properties of null (reading 'id')") /\
  prop (failure_result 500 "SHOPIFY_FULFILLMENT_FETCH_ERROR"
          "Cannot read properties of null (reading 'id')") "success"
    <> VBool true.
Proof. repeat split; try reflexivity. discriminate. Qed.

(** C6.  When the returned object has no [fulfillments] field (for
    [getFulfillments]: no [order], or an [order] without [fulfillments]),
    the result is a success with [fulfillments = []], [count = 0] and
    [fulfillmentIds = []]. *)
Theorem success_of_missing_field (f : entry_point)
    (callShopifyAdmin : admin_client) (orderId : order_id)
    (fs : list (string * value)) :
  callShopifyAdmin (request_path f orderId) = Normal (VObj fs) ->
  fulfillments_field f (VObj fs) = None ->
  exists r,
    invoke f callShopifyAdmin orderId = Normal (VObj r) /\
    lookup "success" r = Some (VBool true) /\
    lookup "fulfillments" r = Some (VArr []) /\
    lookup "count" r = Some (VNum 0) /\
    lookup "fulfillmentIds" r = Some (VArr []).
Proof.
  intros Hcall Hf.
  destruct f; unfold invoke, request_path in *; simpl in Hf.
  - unfold getFulfillmentOrders. rewrite Hcall. cbn. rewrite Hf. cbn.
    eexists. split; [reflexivity|]. cbn. repeat split; reflexivity.
  - unfold getFulfillments. rewrite Hcall. cbn.
    destruct (lookup "order" fs) as [[| |[]|n|s| |ofs]|]; cbn;
      try (eexists; split; [reflexivity|]; cbn; repeat split; reflexivity).
    + unfold or_else; cbn. destruct (n =? 0); cbn;
        eexists; (split; [reflexivity|]); cbn; repeat split; reflexivity.
    + unfold or_else; cbn. destruct (String.eqb s ""); cbn;
        eexists; (split; [reflexivity|]); cbn; repeat split; reflexivity.
    + rewrite Hf. cbn.
      eexists. split; [reflexivity|]. cbn. repeat split; reflexivity.
Qed.

Lemma success_of_missing_field_witness :
  (exists r,
     getFulfillmentOrders (always (Normal (VObj [("errors", VNull)])))
       (IdStr "123") = Normal (VObj r) /\
     lookup "success" r = Some (VBool true) /\
     lookup "fulfillments" r = Some (VArr []) /\
     lookup "count" r = Some (VNum 0) /\
     lookup "fulfillmentIds" r = Some (VArr [])) /\
  (exists r,
     getFulfillments
       (always (Normal (VObj [("order", VObj [("id", VNum 7)])])))
       (IdStr "123") = Normal (VObj r) /\
     lookup "success" r = Some (VBool true) /\
     lookup "fulfillments" r = Some (VArr []) /\
     lookup "count" r = Some (VNum 0) /\
     lookup "fulfillmentIds" r = Some (VArr [])).
Proof.
  split.
  - apply (success_of_missing_field GetFulfillmentOrders
             (always (Normal (VObj [("errors", VNull)]))) (IdStr "123")
             [("errors", VNull)]);
      reflexivity.
  - apply (success_of_missing_field GetFulfillments
             (always (Normal (VObj [("order", VObj [("id", VNum 7)])])))
             (IdStr "123") [("order", VObj [("id", VNum 7)])]);
      reflexivity.
Defined.

(* ------------------------------------------------------------------ *)
(** ** Failures of the collaborator *)

(** C2.  When the collaborator fails with an error whose message's first
    parenthesized decimal number parses to 401 or 403, either function
    returns a failure with that code as [httpStatus], the error
    [SHOPIFY_ADMIN_AUTH_ERROR], the message unchanged, and empty
    [fulfillments], [count] 0 and empty [fulfillmentIds]. *)
Theorem auth_failure (f : entry_point) (callShopifyAdmin : admin_client)
    (orderId : order_id) (msg ds : string) :
  callShopifyAdmin (request_path f orderId) = Abrupt (JsError msg) ->
  first_paren_number msg ds ->
  parseInt ds = 401 \/ parseInt ds = 403 ->
  invoke f callShopifyAdmin orderId
    = Normal (VObj
        [ ("success", VBool false);
          ("httpStatus", VNum (parseInt ds));
          ("error", VStr "SHOPIFY_ADMIN_AUTH_ERROR");
          ("message", VStr msg);
          ("fulfillments", VArr []);
          ("count", VNum 0);
          ("fulfillmentIds", VArr []) ]).
Proof.
  intros Hcall Hfirst Hcode.
  rewrite (handler_invoke _ _ _ f Hcall). unfold failure_for.
  apply regex_match_some_iff in Hfirst. rewrite Hfirst. cbv zeta.
  replace ((parseInt ds =? 401) || (parseInt ds =? 403)) with true;
    [reflexivity|].
  symmetry. apply orb_true_iff. rewrite !Z.eqb_eq. exact Hcode.
Qed.

(** Witness for C2: the second scenario of the specification. *)
Lemma auth_failure_witness :
  getFulfillments
    (always (Abrupt
       (JsError "Shopify Admin API error (401): Invalid API key")))
    (IdNum 123)
  = Normal (VObj
      [ ("success", VBool false);
        ("httpStatus", VNum 401);
        ("error", VStr "SHOPIFY_ADMIN_AUTH_ERROR");
        ("message",
         VStr "Shopify Admin API error (401): Invalid API key");
        ("fulfillments", VArr []);
        ("count", VNum 0);
        ("fulfillmentIds", VArr []) ]).
Proof.
  apply (auth_failure GetFulfillments
           (always (Abrupt
              (JsError "Shopify Admin API error (401): Invalid API key")))
           (IdNum 123)
           "Shopify Admin API error (401): Invalid API key" "401").
  - reflexivity.
  - apply regex_match_some_iff. reflexivity.
  - left. reflexivity.
Defined.

(** C3 (as amended).  When the first parenthesized decimal number of
    the message parses to a code other than 401 and 403, either function
    returns the error [SHOPIFY_FULFILLMENT_FETCH_ERROR]; [httpStatus] is
    500 when the parsed code is 0, and the parsed code itself when that
    is not 0 and at most 2^53, the range in which [parseInt] returns the
    written number exactly. *)
Theorem fetch_failure_status (f : entry_point)
    (callShopifyAdmin : admin_client) (orderId : order_id)
    (msg ds : string) :
  callShopifyAdmin (request_path f orderId) = Abrupt (JsError msg) ->
  first_paren_number msg ds ->
  parseInt ds <> 401 -> parseInt ds <> 403 ->
  exists r,
    invoke f callShopifyAdmin orderId = Normal (VObj r) /\
    lookup "error" r = Some (VStr "SHOPIFY_FULFILLMENT_FETCH_ERROR") /\
    (parseInt ds = 0 -> lookup "httpStatus" r = Some (VNum 500)) /\
    (parseInt ds <> 0 -> parseInt ds <= 2 ^ 53 ->
     lookup "httpStatus" r = Some (VNum (parseInt ds))).
Proof.
  intros Hcall Hfirst H401 H403.
  rewrite (handler_invoke _ _ _ f Hcall). unfold failure_for.
  apply regex_match_some_iff in Hfirst. rewrite Hfirst. cbv zeta.
  apply Z.eqb_neq in H401, H403. rewrite H401, H403. cbn [orb].
  eexists. split; [reflexivity|]. split; [reflexivity|].
  split.
  - intros H0. apply Z.eqb_eq in H0. rewrite H0. reflexivity.
  - intros H0 _. apply Z.eqb_neq in H0. rewrite H0. reflexivity.
Qed.

Lemma fetch_failure_status_witness :
  exists r,
    getFulfillmentOrders
      (always (Abrupt (JsError "Shopify Admin API error (404): Not Found")))
      (IdNum 123) = Normal (VObj r) /\
    lookup "error" r = Some (VStr "SHOPIFY_FULFILLMENT_FETCH_ERROR") /\
    lookup "httpStatus" r = Some (VNum 404).
Proof.
  destruct (fetch_failure_status GetFulfillmentOrders
              (always (Abrupt
                 (JsError "Shopify Admin API error (404): Not Found")))
              (IdNum 123) "Shopify Admin API error (404): Not Found" "404")
    as (r & Hr & Herr & _ & Hstatus).
  - reflexivity.
  - apply regex_match_some_iff. reflexivity.
  - discriminate.
  - discriminate.
  - exists r. split; [exact Hr|]. split; [exact Herr|].
    apply Hstatus; discriminate.
Defined.

(** Counterexample to C3 as stated: the parsed code 0 is not in
    {401, 403}, and [httpStatus] is 500, not 0 ([0 || 500]). *)
Lemma status_zero_becomes_500 :
  first_paren_number "Shopify Admin API error (0): no response" "0" /\
  parseInt "0" = 0 /\
  (forall f : entry_point,
     exists r,
       invoke f
         (always (Abrupt
            (JsError "Shopify Admin API error (0): no response")))
         (IdNum 123) = Normal (VObj r) /\
       lookup "httpStatus" r = Some (VNum 500) /\
       lookup "httpStatus" r <> Some (VNum (parseInt "0"))).
Proof.
  split; [apply regex_match_some_iff; reflexivity|].
  split; [reflexivity|].
  intros f. eexists. split; [destruct f; reflexivity|].
  split; [reflexivity|discriminate].
Qed.

(** C4.  When the message of the error holds no parenthesized decimal
    number, either function returns a failure with [httpStatus] 500, the
    error [SHOPIFY_FULFILLMENT_FETCH_ERROR], the message unchanged, and
    empty [fulfillments], [count] 0 and empty [fulfillmentIds]. *)
Theorem no_status_is_500 (f : entry_point) (callShopifyAdmin : admin_client)
    (orderId : order_id) (msg : string) :
  callShopifyAdmin (request_path f orderId) = Abrupt (JsError msg) ->
  ~ has_paren_number msg ->
  invoke f callShopifyAdmin orderId
    = Normal (VObj
        [ ("success", VBool false);
          ("httpStatus", VNum 500);
          ("error", VStr "SHOPIFY_FULFILLMENT_FETCH_ERROR");
          ("message", VStr msg);
          ("fulfillments", VArr []);
          ("count", VNum 0);
          ("fulfillmentIds", VArr []) ]).
Proof.
  intros Hcall Hnone.
  rewrite (handler_invoke _ _ _ f Hcall). unfold failure_for.
  apply regex_match_none_iff in Hnone. rewrite Hnone. reflexivity.
Qed.

(** Witness for C4: the third scenario of the specification. *)
Lemma no_status_is_500_witness :
  getFulfillmentOrders (always (Abrupt (JsError "network timeout")))
    (IdStr "123")
  = Normal (VObj
      [ ("success", VBool false);
        ("httpStatus", VNum 500);
        ("error", VStr "SHOPIFY_FULFILLMENT_FETCH_ERROR");
        ("message", VStr "network timeout");
        ("fulfillments", VArr []);
        ("count", VNum 0);
        ("fulfillmentIds", VArr []) ]).
Proof.
  apply (no_status_is_500 GetFulfillmentOrders
           (always (Abrupt (JsError "network timeout"))) (IdStr "123")
           "network timeout").
  - reflexivity.
  - apply regex_match_none_iff. reflexivity.
Defined.

(** C8.  For one and the same error message, the two functions return
    the same failure: same [success], [httpStatus], [error], [message],
    [fulfillments], [count] and [fulfillmentIds]. *)
Theorem same_classification (call1 call2 : admin_client)
    (id1 id2 : order_id) (msg : string) :
  call1 (request_path GetFulfillmentOrders id1) = Abrupt (JsError msg) ->
  call2 (request_path GetFulfillments id2) = Abrupt (JsError msg) ->
  getFulfillmentOrders call1 id1 = getFulfillments call2 id2 /\
  exists httpStatus error,
    getFulfillments call2 id2
      = Normal (VObj
          [ ("success", VBool false);
            ("httpStatus", VNum httpStatus);
            ("error", VStr error);
            ("message", VStr msg);
            ("fulfillments", VArr []);
            ("count", VNum 0);
            ("fulfillmentIds", VArr []) ]).
Proof.
  intros H1 H2.
  rewrite (handler_orders _ _ _ H1), (handler_order _ _ _ H2).
  split; [reflexivity|]. unfold failure_for.
  destruct (regex_match msg) as [ds|]; cbv zeta.
  - destruct ((parseInt ds =? 401) || (parseInt ds =? 403));
      eexists; eexists; reflexivity.
  - eexists; eexists; reflexivity.
Qed.

Lemma same_classification_witness :
  getFulfillmentOrders
    (always (Abrupt (JsError "Shopify Admin API error (403): Forbidden")))
    (IdNum 1)
  = getFulfillments
      (always (Abrupt (JsError "Shopify Admin API error (403): Forbidden")))
      (IdStr "2").
Proof.
  apply (same_classification
           (always (Abrupt
              (JsError "Shopify Admin API error (403): Forbidden")))
           (always (Abrupt
              (JsError "Shopify Admin API error (403): Forbidden")))
           (IdNum 1) (IdStr "2")
           "Shopify Admin API error (403): Forbidden");
    reflexivity.
Defined.



(** C10.  A message whose first parenthesized number is [(401)] or
    [(403)], at any position and in any wording, is classified
    [SHOPIFY_ADMIN_AUTH_ERROR] by either function. *)
Theorem any_wording_is_auth_error (f : entry_point)
    (callShopifyAdmin : admin_client) (orderId : order_id)
    (pre code post : string) :
  callShopifyAdmin (request_path f orderId)
    = Abrupt (JsError (pre ++ "(" ++ code ++ ")" ++ post)) ->
  ~ has_paren_number pre ->
  code = "401" \/ code = "403" ->
  exists r,
    invoke f callShopifyAdmin orderId = Normal (VObj r) /\
    lookup "success" r = Some (VBool false) /\
    lookup "error" r = Some (VStr "SHOPIFY_ADMIN_AUTH_ERROR") /\
    lookup "httpStatus" r = Some (VNum (parseInt code)).
Proof.
  intros Hcall Hpre Hcode.
  assert (Hm : regex_match (pre ++ "(" ++ code ++ ")" ++ post) = Some code).
  { apply regex_match_first; [now apply regex_match_none_iff|].
    destruct Hcode as [-> | ->]; (split; [discriminate|reflexivity]). }
  rewrite (handler_invoke _ _ _ f Hcall). unfold failure_for.
  rewrite Hm.
  destruct Hcode as [-> | ->]; cbn;
    (eexists; split; [reflexivity|]; repeat split; reflexivity).
Qed.

Lemma any_wording_is_auth_error_witness :
  exists r,
    getFulfillmentOrders
      (always (Abrupt (JsError "socket closed after 3 tries (403) bytes")))
      (IdNum 123) = Normal (VObj r) /\
    lookup "success" r = Some (VBool false) /\
    lookup "error" r = Some (VStr "SHOPIFY_ADMIN_AUTH_ERROR") /\
    lookup "httpStatus" r = Some (VNum 403).
Proof.
  apply (any_wording_is_auth_error GetFulfillmentOrders
           (always (Abrupt
              (JsError "socket closed after 3 tries (403) bytes")))
           (IdNum 123) "socket closed after 3 tries " "403" " bytes").
  - reflexivity.
  - apply regex_match_none_iff. reflexivity.
  - right. reflexivity.
Defined.

(* ------------------------------------------------------------------ *)
(** ** No exception escapes *)

Section Completions.

Context {A B : Type}.

Lemma bind_normal_inv (c : completion A) (k : A -> completion B) (b : B) :
  bind c k = Normal b -> exists a, c = Normal a /\ k a = Normal b.
Proof.
  destruct c as [a|e]; simpl; intros H; [|discriminate].
  exists a. split; [reflexivity|exact H].
Qed.

Lemma only_errors_bind (c : completion A) (k : A -> completion B) :
  only_errors c -> (forall a, only_errors (k a)) -> only_errors (bind c k).
Proof.
  destruct c as [a|[m|v]]; simpl; intros Hc Hk; auto.
Qed.

Lemma try_catch_cases (body : completion A) (h : thrown -> completion A) :
  only_errors body ->
  (exists a, body = Normal a /\ try_catch body h = Normal a) \/
  (exists m, body = Abrupt (JsError m) /\
             try_catch body h = h (JsError m)).
Proof.
  destruct body as [a|[m|v]]; simpl; intros H.
  - left. exists a. split; reflexivity.
  - right. exists m. split; reflexivity.
  - contradiction.
Qed.

End Completions.

Lemma only_errors_get (v : value) (k : string) : only_errors (get v k).
Proof. destruct v; exact I. Qed.

Lemma only_errors_map_ids (l : list value) :
  only_errors (map_elems (fun f => get f "id") l).
Proof.
  destruct (map_ids_cases l) as [-> | [-> | ->]]; exact I.
Qed.

Lemma only_errors_call_map (expr : string) (v : value) :
  only_errors (call_map expr v (fun f => get f "id")).
Proof.
  destruct v; try exact I.
  apply only_errors_bind; [apply only_errors_map_ids|intros; exact I].
Qed.

Lemma get_normal_inv (v : value) (k : string) (x : value) :
  get v k = Normal x -> x = prop v k.
Proof. destruct v; simpl; intros H; inversion H; reflexivity. Qed.

(** [(o || {}).k] is [o.k] or, for a falsy [o], [undefined]: in both
    cases what [prop o k] is, for a key other than [length]. *)
Lemma prop_or_empty (o : value) (k : string) :
  String.eqb k "length" = false ->
  prop (or_else o (VObj [])) k = prop o k.
Proof.
  intros Hk. unfold or_else.
  destruct (truthy o) eqn:Ht; [reflexivity|].
  destruct o; simpl in *; try reflexivity; try discriminate.
  now rewrite Hk.
Qed.

Lemma failure_for_shape (msg : string) :
  exists httpStatus error,
    failure_for msg = failure_result httpStatus error msg.
Proof.
  unfold failure_for. destruct (regex_match msg) as [ds|]; cbv zeta.
  - destruct ((parseInt ds =? 401) || (parseInt ds =? 403));
      eexists; eexists; reflexivity.
  - eexists; eexists; reflexivity.
Qed.

Create HintDb js.

#[local] Hint Resolve only_errors_get only_errors_map_ids
  only_errors_call_map : js.

Ltac only_errors_tac :=
  repeat first
    [ apply only_errors_bind; [|intros ?]
    | match goal with |- only_errors (if ?b then _ else _) => destruct b end
    | exact I
    | solve [auto with js] ].

Ltac invert_binds H :=
  repeat (apply bind_normal_inv in H;
          let a := fresh "a" in
          let Ha := fresh "Ha" in
          destruct H as (a & Ha & H); cbv beta zeta in H).

(** What each function does with a response: a success object, or the
    [catch] clause run on a [TypeError] of the [try] block. *)
Lemma orders_on_response (callShopifyAdmin : admin_client)
    (orderId : order_id) (response : value) :
  callShopifyAdmin (request_path GetFulfillmentOrders orderId)
    = Normal response ->
  (exists fulfillments count ids,
     getFulfillmentOrders callShopifyAdmin orderId
       = Normal (VObj
           [ ("success", VBool true);
             ("httpStatus", VNum 200);
             ("fulfillments", fulfillments);
             ("count", count);
             ("fulfillmentIds", ids);
             ("rawResponse", response) ])) \/
  (exists m,
     getFulfillmentOrders callShopifyAdmin orderId
       = Normal (failure_for m)).
Proof.
  intros Hcall. unfold getFulfillmentOrders, request_path in *.
  rewrite Hcall.
  match goal with |- context [try_catch ?b ?h] =>
    destruct (try_catch_cases b h) as [(a & Hb & ->) | (m & Hb & ->)]
  end.
  - cbn [bind]. only_errors_tac.
  - left. cbn [bind] in Hb. invert_binds Hb.
    inversion Hb; subst. eauto.
  - right. exists m.
    apply (handler_orders (always (Abrupt (JsError m))) orderId m).
    reflexivity.
Qed.

Lemma order_on_response (callShopifyAdmin : admin_client)
    (orderId : order_id) (response : value) :
  callShopifyAdmin (request_path GetFulfillments orderId)
    = Normal response ->
  (exists fulfillments count ids,
     getFulfillments callShopifyAdmin orderId
       = Normal (VObj
           [ ("success", VBool true);
             ("httpStatus", VNum 200);
             ("fulfillments", fulfillments);
             ("count", count);
             ("fulfillmentIds", ids);
             ("orderId", prop (prop response "order") "id");
             ("orderName", prop (prop response "order") "name");
             ("rawResponse", response) ])) \/
  (exists m,
     getFulfillments callShopifyAdmin orderId = Normal (failure_for m)).
Proof.
  intros Hcall. unfold getFulfillments, request_path in *.
  rewrite Hcall.
  match goal with |- context [try_catch ?b ?h] =>
    destruct (try_catch_cases b h) as [(a & Hb & ->) | (m & Hb & ->)]
  end.
  - cbn [bind]. only_errors_tac.
  - left. cbn [bind] in Hb. invert_binds Hb.
    inversion Hb; subst.
    apply get_normal_inv in Ha, Ha3, Ha4. subst.
    rewrite !prop_or_empty by reflexivity. eauto.
  - right. exists m.
    apply (handler_order (always (Abrupt (JsError m))) orderId m).
    reflexivity.
Qed.

(** C5.  Whatever the collaborator does, return a value or fail with an
    [Error] that has a message, either function returns a result object
    with a boolean [success], and throws nothing; when the collaborator
    failed, [success] is [false]. *)
Theorem never_throws (f : entry_point) (callShopifyAdmin : admin_client)
    (orderId : order_id) :
  only_errors (callShopifyAdmin (request_path f orderId)) ->
  exists r,
    invoke f callShopifyAdmin orderId = Normal (VObj r) /\
    (exists b, lookup "success" r = Some (VBool b)) /\
    (forall e, callShopifyAdmin (request_path f orderId) = Abrupt e ->
               lookup "success" r = Some (VBool false)).
Proof.
  intros Hcall.
  destruct (callShopifyAdmin (request_path f orderId))
    as [response|[msg|v]] eqn:Hc; [| |contradiction].
  - assert (Hr :
      (exists r, invoke f callShopifyAdmin orderId = Normal (VObj r) /\
                 lookup "success" r = Some (VBool true)) \/
      (exists m, invoke f callShopifyAdmin orderId
                   = Normal (failure_for m))).
    { destruct f; simpl.
      - destruct (orders_on_response _ _ _ Hc)
          as [(x & y & z & ->) | (m & ->)]; eauto.
      - destruct (order_on_response _ _ _ Hc)
          as [(x & y & z & ->) | (m & ->)]; eauto. }
    destruct Hr as [(r & -> & Hs) | (m & ->)].
    + exists r. split; [reflexivity|]. split; [eauto|discriminate].
    + destruct (failure_for_shape m) as (st & err & ->).
      eexists. split; [reflexivity|]. split; [eexists; reflexivity|].
      discriminate.
  - rewrite (handler_invoke _ _ _ f Hc).
    destruct (failure_for_shape msg) as (st & err & ->).
    eexists. split; [reflexivity|]. split; [eexists; reflexivity|].
    intros _ _. reflexivity.
Qed.

Lemma never_throws_witness :
  (exists r,
     getFulfillmentOrders
       (always (Normal (VObj [("fulfillments", VNum 7)]))) (IdNum 123)
       = Normal (VObj r) /\
     (exists b, lookup "success" r = Some (VBool b)) /\
     (forall e,
        always (Normal (VObj [("fulfillments", VNum 7)]))
          (request_path GetFulfillmentOrders (IdNum 123)) = Abrupt e ->
        lookup "success" r = Some (VBool false))) /\
  (exists r,
     getFulfillments (always (Abrupt (JsError "read ECONNRESET")))
       (IdNum 123) = Normal (VObj r) /\
     (exists b, lookup "success" r = Some (VBool b)) /\
     (forall e,
        always (Abrupt (JsError "read ECONNRESET"))
          (request_path GetFulfillments (IdNum 123)) = Abrupt e ->
        lookup "success" r = Some (VBool false))).
Proof.
  split.
  - apply (never_throws GetFulfillmentOrders
             (always (Normal (VObj [("fulfillments", VNum 7)])))
             (IdNum 123)).
    exact I.
  - apply (never_throws GetFulfillments
             (always (Abrupt (JsError "read ECONNRESET"))) (IdNum 123)).
    exact I.
Defined.

(** How an exception can still escape: the collaborator throws something
    that is not an [Error], here [null]; reading [error.message] then
    throws inside the [catch] clause. *)
Example non_error_escapes :
  getFulfillments (always (Abrupt (JsValue VNull))) (IdNum 123)
  = Abrupt (JsError "Cannot read properties of null (reading 'message')").
Proof. reflexivity. Qed.

(** C7.  A successful result of [getFulfillments] carries [orderId], the
    [id] field of the returned order, and [orderName], its [name] field;
    both are [undefined] when the order is the empty object or absent. *)
Theorem order_id_and_name (callShopifyAdmin : admin_client)
    (orderId : order_id) (fs r : list (string * value)) :
  callShopifyAdmin (request_path GetFulfillments orderId)
    = Normal (VObj fs) ->
  getFulfillments callShopifyAdmin orderId = Normal (VObj r) ->
  lookup "success" r = Some (VBool true) ->
  (forall ofs, lookup "order" fs = Some (VObj ofs) ->
     lookup "orderId" r = Some (prop (VObj ofs) "id") /\
     lookup "orderName" r = Some (prop (VObj ofs) "name")) /\
  (lookup "order" fs = None \/ lookup "order" fs = Some (VObj []) ->
     lookup "orderId" r = Some VUndefined /\
     lookup "orderName" r = Some VUndefined).
Proof.
  intros Hcall Hres Hsucc.
  destruct (order_on_response _ _ _ Hcall)
    as [(x & y & z & Heq) | (m & Heq)]; rewrite Heq in Hres.
  - inversion Hres; subst; clear Hres. cbn [prop].
    split.
    + intros ofs Ho. rewrite Ho. split; reflexivity.
    + intros [Ho | Ho]; rewrite Ho; split; reflexivity.
  - exfalso. destruct (failure_for_shape m) as (st & err & Hshape).
    rewrite Hshape in Hres. inversion Hres; subst. discriminate.
Qed.

Lemma order_id_and_name_witness :
  lookup "orderId"
    [ ("success", VBool true); ("httpStatus", VNum 200);
      ("fulfillments", VArr []); ("count", VNum 0);
      ("fulfillmentIds", VArr []); ("orderId", VNum 7);
      ("orderName", VStr "#1001");
      ("rawResponse",
       VObj [("order", VObj [("id", VNum 7); ("name", VStr "#1001")])]) ]
    = Some (VNum 7) /\
  lookup "orderName"
    [ ("success", VBool true); ("httpStatus", VNum 200);
      ("fulfillments", VArr []); ("count", VNum 0);
      ("fulfillmentIds", VArr []); ("orderId", VNum 7);
      ("orderName", VStr "#1001");
      ("rawResponse",
       VObj [("order", VObj [("id", VNum 7); ("name", VStr "#1001")])]) ]
    = Some (VStr "#1001").
Proof.
  apply (proj1
    (order_id_and_name
       (always (Normal
          (VObj [("order", VObj [("id", VNum 7); ("name", VStr "#1001")])])))
       (IdNum 123)
       [("order", VObj [("id", VNum 7); ("name", VStr "#1001")])]
       _ eq_refl eq_refl eq_refl)
    [("id", VNum 7); ("name", VStr "#1001")] eq_refl).
Defined.

(* ------------------------------------------------------------------ *)
(** ** Every response, case by case *)

Lemma map_ids_bad (l : list value) :
  forallb not_null l = false ->
  map_elems (fun f => get f "id") l = Abrupt (JsError null_read_message) \/
  map_elems (fun f => get f "id") l
    = Abrupt (JsError undefined_read_message).
Proof.
  induction l as [|x l IH]; simpl; intros H; [discriminate|].
  apply andb_false_iff in H as [Hx | Hl].
  - destruct x; try discriminate; simpl; auto.
  - destruct x; simpl; auto; destruct (IH Hl) as [-> | ->]; simpl; auto.
Qed.

Lemma or_else_not_nullish (a b : value) :
  nullish b = false -> nullish (or_else a b) = false.
Proof.
  intros Hb. unfold or_else. destruct (truthy a) eqn:Ha; [|exact Hb].
  destruct a; try reflexivity; discriminate.
Qed.

Lemma truthy_not_nullish (a : value) : truthy a = true -> nullish a = false.
Proof. destruct a; try reflexivity; discriminate. Qed.

Lemma orders_success (callShopifyAdmin : admin_client) (orderId : order_id)
    (response : value) (l : list value) :
  callShopifyAdmin (request_path GetFulfillmentOrders orderId)
    = Normal response ->
  nullish response = false ->
  (truthy (listed GetFulfillmentOrders response) = false /\ l = []) \/
  (listed GetFulfillmentOrders response = VArr l /\
   forallb not_null l = true) ->
  getFulfillmentOrders callShopifyAdmin orderId
    = Normal (success_result GetFulfillmentOrders response l).
Proof.
  intros Hcall Hr Hl. unfold getFulfillmentOrders, request_path, listed in *.
  rewrite Hcall. cbn [bind].
  rewrite !(get_not_nullish response "fulfillments" Hr). cbn [bind].
  destruct Hl as [[Hf ->] | [Hf Hl]].
  - unfold or_else. rewrite Hf. reflexivity.
  - rewrite Hf. cbn. rewrite (map_ids_ok l Hl). reflexivity.
Qed.

Lemma order_success (callShopifyAdmin : admin_client) (orderId : order_id)
    (response : value) (l : list value) :
  callShopifyAdmin (request_path GetFulfillments orderId)
    = Normal response ->
  nullish response = false ->
  (truthy (listed GetFulfillments response) = false /\ l = []) \/
  (listed GetFulfillments response = VArr l /\ forallb not_null l = true) ->
  getFulfillments callShopifyAdmin orderId
    = Normal (success_result GetFulfillments response l).
Proof.
  intros Hcall Hr Hl. unfold getFulfillments, request_path, listed in *.
  rewrite Hcall. cbn [bind].
  rewrite (get_not_nullish response "order" Hr). cbn [bind].
  assert (Ho : nullish (or_else (prop response "order") (VObj [])) = false)
    by (apply or_else_not_nullish; reflexivity).
  rewrite !(get_not_nullish _ _ Ho). cbn [bind].
  rewrite !prop_or_empty by reflexivity.
  rewrite prop_or_empty in Hl by reflexivity.
  destruct Hl as [[Hf ->] | [Hf Hl]].
  - unfold or_else at 1 2 3. rewrite Hf. reflexivity.
  - rewrite Hf. cbn. rewrite (map_ids_ok l Hl). reflexivity.
Qed.

Lemma orders_failure (callShopifyAdmin : admin_client) (orderId : order_id)
    (response : value) :
  callShopifyAdmin (request_path GetFulfillmentOrders orderId)
    = Normal response ->
  nullish response = true \/
  (truthy (listed GetFulfillmentOrders response) = true /\
   forall l, listed GetFulfillmentOrders response = VArr l ->
             forallb not_null l = false) ->
  exists m,
    getFulfillmentOrders callShopifyAdmin orderId
      = Normal (failure_result 500 "SHOPIFY_FULFILLMENT_FETCH_ERROR" m) /\
    try_block_message GetFulfillmentOrders response m.
Proof.
  intros Hcall H.
  unfold getFulfillmentOrders, request_path, try_block_message, listed in *.
  rewrite Hcall. cbn [bind].
  destruct H as [Hr | [Ht Hl]].
  - destruct response; try discriminate;
      (eexists; split; [reflexivity|]; split;
       [intros l H; discriminate | intros H; discriminate]).
  - assert (Hr : nullish response = false).
    { destruct response; try reflexivity; discriminate. }
    rewrite !(get_not_nullish response "fulfillments" Hr). cbn [bind].
    rewrite Ht.
    rewrite (get_not_nullish _ "length" (truthy_not_nullish _ Ht)).
    cbn [bind].
    destruct (prop response "fulfillments") as [| | b | n | s | l | fs] eqn:Hf;
      try discriminate;
      try (eexists; split; [reflexivity|]; split;
           [intros l H; discriminate | intros _ _; reflexivity]).
    cbn [call_map].
    destruct (map_ids_bad l (Hl l eq_refl)) as [-> | ->];
      (eexists; split; [reflexivity|]; split;
       [intros; auto | intros _ H; contradiction (H l); reflexivity]).
Qed.

Lemma order_failure (callShopifyAdmin : admin_client) (orderId : order_id)
    (response : value) :
  callShopifyAdmin (request_path GetFulfillments orderId)
    = Normal response ->
  nullish response = true \/
  (truthy (listed GetFulfillments response) = true /\
   forall l, listed GetFulfillments response = VArr l ->
             forallb not_null l = false) ->
  exists m,
    getFulfillments callShopifyAdmin orderId
      = Normal (failure_result 500 "SHOPIFY_FULFILLMENT_FETCH_ERROR" m) /\
    try_block_message GetFulfillments response m.
Proof.
  intros Hcall H.
  unfold getFulfillments, request_path, try_block_message, listed in *.
  rewrite Hcall. cbn [bind].
  destruct H as [Hr | [Ht Hl]].
  - destruct response; try discriminate;
      (eexists; split; [reflexivity|]; split;
       [intros l H; discriminate | intros H; discriminate]).
  - assert (Hr : nullish response = false).
    { destruct response; try reflexivity; discriminate. }
    rewrite (get_not_nullish response "order" Hr). cbn [bind].
    assert (Ho : nullish (or_else (prop response "order") (VObj [])) = false)
      by (apply or_else_not_nullish; reflexivity).
    rewrite !(get_not_nullish _ _ Ho). cbn [bind].
    set (F := prop (or_else (prop response "order") (VObj [])) "fulfillments")
      in *.
    unfold or_else at 1 2 3. rewrite Ht.
    rewrite (get_not_nullish _ "length" (truthy_not_nullish _ Ht)).
    cbn [bind].
    destruct F as [| | b | n | s | l | fs] eqn:Hf;
      try discriminate;
      try (eexists; split; [reflexivity|]; split;
           [intros l H; discriminate | intros _ _; reflexivity]).
    cbn [call_map].
    destruct (map_ids_bad l (Hl l eq_refl)) as [-> | ->];
      (eexists; split; [reflexivity|]; split;
       [intros; auto | intros _ H; contradiction (H l); reflexivity]).
Qed.

Lemma invoke_success (f : entry_point) (callShopifyAdmin : admin_client)
    (orderId : order_id) (response : value) (l : list value) :
  callShopifyAdmin (request_path f orderId) = Normal response ->
  nullish response = false ->
  (truthy (listed f response) = false /\ l = []) \/
  (listed f response = VArr l /\ forallb not_null l = true) ->
  invoke f callShopifyAdmin orderId = Normal (success_result f response l).
Proof.
  destruct f; [apply orders_success|apply order_success].
Qed.

Lemma invoke_failure (f : entry_point) (callShopifyAdmin : admin_client)
    (orderId : order_id) (response : value) :
  callShopifyAdmin (request_path f orderId) = Normal response ->
  nullish response = true \/
  (truthy (listed f response) = true /\
   forall l, listed f response = VArr l -> forallb not_null l = false) ->
  exists m,
    invoke f callShopifyAdmin orderId
      = Normal (failure_result 500 "SHOPIFY_FULFILLMENT_FETCH_ERROR" m) /\
    try_block_message f response m.
Proof.
  destruct f; [apply orders_failure|apply order_failure].
Qed.

(** The two ways a returned response can go. *)
Lemma response_cases (f : entry_point) (callShopifyAdmin : admin_client)
    (orderId : order_id) (response : value) :
  callShopifyAdmin (request_path f orderId) = Normal response ->
  (exists l,
     nullish response = false /\
     ((truthy (listed f response) = false /\ l = []) \/
      (listed f response = VArr l /\ forallb not_null l = true)) /\
     invoke f callShopifyAdmin orderId
       = Normal (success_result f response l)) \/
  ((nullish response = true \/
    (truthy (listed f response) = true /\
     forall l, listed f response = VArr l -> forallb not_null l = false)) /\
   exists m,
     invoke f callShopifyAdmin orderId
       = Normal (failure_result 500 "SHOPIFY_FULFILLMENT_FETCH_ERROR" m) /\
     try_block_message f response m).
Proof.
  intros Hcall.
  destruct (nullish response) eqn:Hr.
  { right. split; [left; reflexivity|].
    apply (invoke_failure f _ _ response Hcall). left; exact Hr. }
  destruct (truthy (listed f response)) eqn:Ht.
  - assert (Hcases :
      (exists l, listed f response = VArr l /\ forallb not_null l = true) \/
      (forall l, listed f response = VArr l -> forallb not_null l = false)).
    { destruct (listed f response) as [| | | | |l|];
        try (right; intros l' H'; discriminate).
      destruct (forallb not_null l) eqn:Hl.
      - left. exists l. split; [reflexivity|exact Hl].
      - right. intros l' H'. inversion H'; subst. exact Hl. }
    destruct Hcases as [(l & Hf & Hl) | Hbad].
    + left. exists l. split; [reflexivity|]. split; [right; auto|].
      apply (invoke_success f _ _ response l Hcall Hr). right; auto.
    + right. split; [right; auto|].
      apply (invoke_failure f _ _ response Hcall). right; auto.
  - left. exists []. split; [reflexivity|]. split; [left; auto|].
    apply (invoke_success f _ _ response [] Hcall Hr). left; auto.
Qed.

Lemma parse_digits_nonneg (s : string) (acc : Z) :
  0 <= acc -> 0 <= parse_digits acc s.
Proof.
  revert acc; induction s as [|c s IH]; cbn [parse_digits];
    intros acc Hacc; [exact Hacc|].
  destruct (is_digit c) eqn:Hc; [|exact Hacc].
  apply IH. unfold is_digit in Hc. apply andb_true_iff in Hc as [Hlo _].
  apply Nat.leb_le in Hlo. unfold digit_value. lia.
Qed.

Lemma failure_for_cases (msg : string) :
  (exists n, (n = 401 \/ n = 403) /\
     failure_for msg = failure_result n "SHOPIFY_ADMIN_AUTH_ERROR" msg) \/
  (exists n, n <> 401 /\ n <> 403 /\ 0 < n /\
     failure_for msg
       = failure_result n "SHOPIFY_FULFILLMENT_FETCH_ERROR" msg).
Proof.
  unfold failure_for. destruct (regex_match msg) as [ds|]; cbv zeta.
  - destruct (Z.eqb_spec (parseInt ds) 401) as [H1|H1].
    { left. exists (parseInt ds). split; [left; exact H1|reflexivity]. }
    destruct (Z.eqb_spec (parseInt ds) 403) as [H3|H3].
    { left. exists (parseInt ds). split; [right; exact H3|reflexivity]. }
    right. cbn [orb].
    destruct (Z.eqb_spec (parseInt ds) 0) as [H0|H0].
    + exists 500. repeat split; try lia.
    + exists (parseInt ds). repeat split; try assumption.
      pose proof (parse_digits_nonneg ds 0 (Z.le_refl 0)).
      unfold parseInt in *. lia.
  - right. exists 500. repeat split; try lia.
Qed.

(** Every outcome of a call, for a collaborator that returns a value or
    throws an [Error]. *)
Lemma result_cases (f : entry_point) (callShopifyAdmin : admin_client)
    (orderId : order_id) :
  only_errors (callShopifyAdmin (request_path f orderId)) ->
  (exists response l,
     callShopifyAdmin (request_path f orderId) = Normal response /\
     invoke f callShopifyAdmin orderId
       = Normal (success_result f response l)) \/
  (exists n m, (n = 401 \/ n = 403) /\
     invoke f callShopifyAdmin orderId
       = Normal (failure_result n "SHOPIFY_ADMIN_AUTH_ERROR" m)) \/
  (exists n m, n <> 401 /\ n <> 403 /\ 0 < n /\
     invoke f callShopifyAdmin orderId
       = Normal (failure_result n "SHOPIFY_FULFILLMENT_FETCH_ERROR" m)).
Proof.
  intros Hcall.
  destruct (callShopifyAdmin (request_path f orderId))
    as [response|[msg|v]] eqn:Hc; [| |contradiction].
  - destruct (response_cases f _ _ _ Hc)
      as [(l & _ & _ & ->) | (_ & m & -> & _)].
    + left. exists response, l. split; reflexivity.
    + right. right. exists 500, m. repeat split; try lia.
  - rewrite (handler_invoke _ _ _ f Hc).
    destruct (failure_for_cases msg)
      as [(n & Hn & ->) | (n & H1 & H3 & H0 & ->)].
    + right. left. exists n, msg. split; [exact Hn|reflexivity].
    + right. right. exists n, msg. repeat split; assumption.
Qed.

(* ------------------------------------------------------------------ *)
(** ** Which responses succeed *)

(** X1.  A returned response gives a success exactly when it is neither
    [null] nor [undefined] and the list it holds is falsy or an array
    without a [null] or [undefined] element. *)
Theorem succeeds_exactly_when (f : entry_point)
    (callShopifyAdmin : admin_client) (orderId : order_id)
    (response : value) :
  callShopifyAdmin (request_path f orderId) = Normal response ->
  (exists r,
     invoke f callShopifyAdmin orderId = Normal (VObj r) /\
     lookup "success" r = Some (VBool true)) <->
  (nullish response = false /\
   (truthy (listed f response) = false \/
    exists l, listed f response = VArr l /\ forallb not_null l = true)).
Proof.
  intros Hcall. split.
  - intros (r & Hr & Hs).
    destruct (response_cases f _ _ _ Hcall)
      as [(l & Hn & Hl & _) | (_ & m & Hm & _)].
    + split; [exact Hn|].
      destruct Hl as [[Ht _] | [Hf Hl]]; [left; exact Ht|].
      right. exists l. split; assumption.
    + rewrite Hm in Hr. inversion Hr; subst. discriminate.
  - intros (Hn & Hl).
    assert (Hex : exists l,
      (truthy (listed f response) = false /\ l = []) \/
      (listed f response = VArr l /\ forallb not_null l = true)).
    { destruct Hl as [Ht | (l & Hf & Hl)];
        [exists []; left; auto | exists l; right; auto]. }
    destruct Hex as (l & Hex).
    rewrite (invoke_success f _ _ response l Hcall Hn Hex).
    destruct f; (eexists; split; reflexivity).
Qed.

Lemma succeeds_exactly_when_witness :
  exists r,
    getFulfillments (always (Normal (VObj [("order", VNull)]))) (IdNum 5)
      = Normal (VObj r) /\
    lookup "success" r = Some (VBool true).
Proof.
  apply (proj2 (succeeds_exactly_when GetFulfillments
                  (always (Normal (VObj [("order", VNull)]))) (IdNum 5)
                  (VObj [("order", VNull)]) eq_refl)).
  split; [reflexivity|left; reflexivity].
Defined.

(** X2.  A returned response is never reported as an authentication
    error: the result is a success with [httpStatus] 200 that carries the
    response as [rawResponse], or a [SHOPIFY_FULFILLMENT_FETCH_ERROR]
    with [httpStatus] 500 and no [rawResponse]. *)
Theorem response_is_success_or_fetch_error (f : entry_point)
    (callShopifyAdmin : admin_client) (orderId : order_id)
    (response : value) :
  callShopifyAdmin (request_path f orderId) = Normal response ->
  exists r,
    invoke f callShopifyAdmin orderId = Normal (VObj r) /\
    ((lookup "success" r = Some (VBool true) /\
      lookup "httpStatus" r = Some (VNum 200) /\
      lookup "rawResponse" r = Some response /\
      lookup "error" r = None) \/
     (lookup "success" r = Some (VBool false) /\
      lookup "httpStatus" r = Some (VNum 500) /\
      lookup "error" r = Some (VStr "SHOPIFY_FULFILLMENT_FETCH_ERROR") /\
      lookup "rawResponse" r = None)).
Proof.
  intros Hcall.
  destruct (response_cases f _ _ _ Hcall)
    as [(l & _ & _ & ->) | (_ & m & -> & _)].
  - destruct f; (eexists; split; [reflexivity|]; left;
      repeat split; reflexivity).
  - eexists. split; [reflexivity|]. right. repeat split; reflexivity.
Qed.

Lemma response_is_success_or_fetch_error_witness :
  exists r,
    getFulfillmentOrders (always (Normal VNull)) (IdNum 5)
      = Normal (VObj r) /\
    ((lookup "success" r = Some (VBool true) /\
      lookup "httpStatus" r = Some (VNum 200) /\
      lookup "rawResponse" r = Some VNull /\
      lookup "error" r = None) \/
     (lookup "success" r = Some (VBool false) /\
      lookup "httpStatus" r = Some (VNum 500) /\
      lookup "error" r = Some (VStr "SHOPIFY_FULFILLMENT_FETCH_ERROR") /\
      lookup "rawResponse" r = None)).
Proof.
  apply (response_is_success_or_fetch_error GetFulfillmentOrders
           (always (Normal VNull)) (IdNum 5) VNull).
  reflexivity.
Defined.

(** X11.  A list that is present but falsy ([null], [false], [0], the
    empty string) is treated as absent: the result is a success with
    empty [fulfillments], [count] 0 and empty [fulfillmentIds]. *)
Theorem falsy_list_is_empty_success (f : entry_point)
    (callShopifyAdmin : admin_client) (orderId : order_id)
    (response : value) :
  callShopifyAdmin (request_path f orderId) = Normal response ->
  nullish response = false ->
  truthy (listed f response) = false ->
  exists r,
    invoke f callShopifyAdmin orderId = Normal (VObj r) /\
    lookup "success" r = Some (VBool true) /\
    lookup "fulfillments" r = Some (VArr []) /\
    lookup "count" r = Some (VNum 0) /\
    lookup "fulfillmentIds" r = Some (VArr []) /\
    lookup "rawResponse" r = Some response.
Proof.
  intros Hcall Hn Ht.
  rewrite (invoke_success f _ _ response [] Hcall Hn (or_introl (conj Ht eq_refl))).
  destruct f; (eexists; split; [reflexivity|]; repeat split; reflexivity).
Qed.

Lemma falsy_list_is_empty_success_witness :
  exists r,
    getFulfillmentOrders
      (always (Normal (VObj [("fulfillments", VNull)]))) (IdNum 5)
      = Normal (VObj r) /\
    lookup "success" r = Some (VBool true) /\
    lookup "fulfillments" r = Some (VArr []) /\
    lookup "count" r = Some (VNum 0) /\
    lookup "fulfillmentIds" r = Some (VArr []) /\
    lookup "rawResponse" r = Some (VObj [("fulfillments", VNull)]).
Proof.
  apply (falsy_list_is_empty_success GetFulfillmentOrders
           (always (Normal (VObj [("fulfillments", VNull)]))) (IdNum 5)
           (VObj [("fulfillments", VNull)]));
    reflexivity.
Defined.

(** X12.  One [null] or [undefined] element anywhere in the array fails
    the whole call: no partial list is returned, and the message is the
    engine's, about reading [id]. *)
Theorem null_element_fails_whole_call (f : entry_point)
    (callShopifyAdmin : admin_client) (orderId : order_id)
    (response : value) (l : list value) (x : value) :
  callShopifyAdmin (request_path f orderId) = Normal response ->
  listed f response = VArr l ->
  In x l -> nullish x = true ->
  exists m,
    invoke f callShopifyAdmin orderId
      = Normal (failure_result 500 "SHOPIFY_FULFILLMENT_FETCH_ERROR" m) /\
    (m = null_read_message \/ m = undefined_read_message).
Proof.
  intros Hcall Hf Hin Hx.
  assert (Hl : forallb not_null l = false).
  { destruct (forallb not_null l) eqn:Hall; [|reflexivity].
    rewrite forallb_forall in Hall. specialize (Hall x Hin).
    unfold not_null in Hall. rewrite Hx in Hall. discriminate. }
  destruct (invoke_failure f _ _ response Hcall) as (m & Hm & Hmsg & _).
  { right. rewrite Hf. split; [reflexivity|].
    intros l' H'. inversion H'; subst. exact Hl. }
  exists m. split; [exact Hm|]. exact (Hmsg l Hf).
Qed.

Lemma null_element_fails_whole_call_witness :
  exists m,
    getFulfillments
      (always (Normal (VObj [("order",
         VObj [("fulfillments", VArr [VObj [("id", VNum 1)]; VNull])])])))
      (IdNum 5)
      = Normal (failure_result 500 "SHOPIFY_FULFILLMENT_FETCH_ERROR" m) /\
    (m = null_read_message \/ m = undefined_read_message).
Proof.
  apply (null_element_fails_whole_call GetFulfillments
           (always (Normal (VObj [("order",
              VObj [("fulfillments", VArr [VObj [("id", VNum 1)]; VNull])])])))
           (IdNum 5)
           (VObj [("order",
              VObj [("fulfillments", VArr [VObj [("id", VNum 1)]; VNull])])])
           [VObj [("id", VNum 1)]; VNull] VNull).
  - reflexivity.
  - reflexivity.
  - right. left. reflexivity.
  - reflexivity.
Defined.

(** X13.  A truthy list that is not an array (a string, a number, an
    object, [true]) fails the call with [httpStatus] 500 and the
    engine's message that [map] is not a function. *)
Theorem non_array_list_fails (f : entry_point)
    (callShopifyAdmin : admin_client) (orderId : order_id)
    (response : value) :
  callShopifyAdmin (request_path f orderId) = Normal response ->
  nullish response = false ->
  truthy (listed f response) = true ->
  (forall l, listed f response <> VArr l) ->
  invoke f callShopifyAdmin orderId
    = Normal (failure_result 500 "SHOPIFY_FULFILLMENT_FETCH_ERROR"
                (receiver_text f ++ ".map is not a function")).
Proof.
  intros Hcall Hn Ht Hna.
  destruct (invoke_failure f _ _ response Hcall) as (m & Hm & _ & Hmsg).
  { right. split; [exact Ht|]. intros l Hl. contradiction (Hna l). }
  rewrite Hm, (Hmsg Hn Hna). reflexivity.
Qed.

Lemma non_array_list_fails_witness :
  getFulfillmentOrders
    (always (Normal (VObj [("fulfillments", VObj [("id", VNum 1)])])))
    (IdNum 5)
  = Normal (failure_result 500 "SHOPIFY_FULFILLMENT_FETCH_ERROR"
              "response.fulfillments.map is not a function").
Proof.
  apply (non_array_list_fails GetFulfillmentOrders
           (always (Normal (VObj [("fulfillments", VObj [("id", VNum 1)])])))
           (IdNum 5)
           (VObj [("fulfillments", VObj [("id", VNum 1)])])).
  - reflexivity.
  - reflexivity.
  - reflexivity.
  - intros l H. discriminate H.
Defined.

(* ------------------------------------------------------------------ *)
(** ** What every result object satisfies *)

(** X3.  In every result, success or failure, [fulfillments] and
    [fulfillmentIds] are arrays of one length and [count] is that
    length. *)
Theorem count_matches_lists (f : entry_point)
    (callShopifyAdmin : admin_client) (orderId : order_id) :
  only_errors (callShopifyAdmin (request_path f orderId)) ->
  exists r l ids,
    invoke f callShopifyAdmin orderId = Normal (VObj r) /\
    lookup "fulfillments" r = Some (VArr l) /\
    lookup "fulfillmentIds" r = Some (VArr ids) /\
    lookup "count" r = Some (VNum (Z.of_nat (List.length l))) /\
    List.length ids = List.length l.
Proof.
  intros Hcall.
  destruct (result_cases f _ _ Hcall)
    as [(response & l & _ & ->) | [(n & m & _ & ->) | (n & m & _ & _ & _ & ->)]].
  - destruct f;
      (eexists; exists l; eexists; split; [reflexivity|];
       repeat split; try reflexivity; apply length_map).
  - eexists; exists []; eexists. split; [reflexivity|].
    repeat split; reflexivity.
  - eexists; exists []; eexists. split; [reflexivity|].
    repeat split; reflexivity.
Qed.

Lemma count_matches_lists_witness :
  exists r l ids,
    getFulfillments
      (always (Normal (VObj [("order",
         VObj [("fulfillments", VArr [VObj [("id", VNum 1)]; VNum 9])])])))
      (IdNum 5) = Normal (VObj r) /\
    lookup "fulfillments" r = Some (VArr l) /\
    lookup "fulfillmentIds" r = Some (VArr ids) /\
    lookup "count" r = Some (VNum (Z.of_nat (List.length l))) /\
    List.length ids = List.length l.
Proof.
  apply (count_matches_lists GetFulfillments
           (always (Normal (VObj [("order",
              VObj [("fulfillments", VArr [VObj [("id", VNum 1)]; VNum 9])])])))
           (IdNum 5)).
  exact I.
Defined.

(** X4.  [httpStatus] is a positive number in every result: never
    [null], never 0. *)
Theorem http_status_is_positive (f : entry_point)
    (callShopifyAdmin : admin_client) (orderId : order_id) :
  only_errors (callShopifyAdmin (request_path f orderId)) ->
  exists r n,
    invoke f callShopifyAdmin orderId = Normal (VObj r) /\
    lookup "httpStatus" r = Some (VNum n) /\ 0 < n.
Proof.
  intros Hcall.
  destruct (result_cases f _ _ Hcall)
    as [(response & l & _ & ->) | [(n & m & Hn & ->) | (n & m & _ & _ & Hn & ->)]].
  - destruct f; (eexists; exists 200; split; [reflexivity|];
      split; [reflexivity|lia]).
  - eexists; exists n. split; [reflexivity|]. split; [reflexivity|lia].
  - eexists; exists n. split; [reflexivity|]. split; [reflexivity|exact Hn].
Qed.

Lemma http_status_is_positive_witness :
  exists r n,
    getFulfillmentOrders (always (Abrupt (JsError "no route (000)")))
      (IdNum 5) = Normal (VObj r) /\
    lookup "httpStatus" r = Some (VNum n) /\ 0 < n.
Proof.
  apply (http_status_is_positive GetFulfillmentOrders
           (always (Abrupt (JsError "no route (000)"))) (IdNum 5)).
  exact I.
Defined.

(** X5.  A failure carries one of the two error codes, and it is
    [SHOPIFY_ADMIN_AUTH_ERROR] exactly when its [httpStatus] is 401 or
    403; a success carries no error code. *)
Theorem error_code_follows_status (f : entry_point)
    (callShopifyAdmin : admin_client) (orderId : order_id) :
  only_errors (callShopifyAdmin (request_path f orderId)) ->
  exists r,
    invoke f callShopifyAdmin orderId = Normal (VObj r) /\
    ((lookup "success" r = Some (VBool true) /\ lookup "error" r = None) \/
     (lookup "success" r = Some (VBool false) /\
      exists n,
        lookup "httpStatus" r = Some (VNum n) /\
        ((n = 401 \/ n = 403) /\
         lookup "error" r = Some (VStr "SHOPIFY_ADMIN_AUTH_ERROR") \/
         (n <> 401 /\ n <> 403) /\
         lookup "error" r
           = Some (VStr "SHOPIFY_FULFILLMENT_FETCH_ERROR")))).
Proof.
  intros Hcall.
  destruct (result_cases f _ _ Hcall)
    as [(response & l & _ & ->) | [(n & m & Hn & ->) | (n & m & H1 & H3 & _ & ->)]].
  - destruct f; (eexists; split; [reflexivity|]; left; split; reflexivity).
  - eexists. split; [reflexivity|]. right. split; [reflexivity|].
    exists n. split; [reflexivity|]. left. split; [exact Hn|reflexivity].
  - eexists. split; [reflexivity|]. right. split; [reflexivity|].
    exists n. split; [reflexivity|]. right. split; [split; assumption|].
    reflexivity.
Qed.

Lemma error_code_follows_status_witness :
  exists r,
    getFulfillments (always (Abrupt (JsError "denied (403)"))) (IdNum 5)
      = Normal (VObj r) /\
    ((lookup "success" r = Some (VBool true) /\ lookup "error" r = None) \/
     (lookup "success" r = Some (VBool false) /\
      exists n,
        lookup "httpStatus" r = Some (VNum n) /\
        ((n = 401 \/ n = 403) /\
         lookup "error" r = Some (VStr "SHOPIFY_ADMIN_AUTH_ERROR") \/
         (n <> 401 /\ n <> 403) /\
         lookup "error" r
           = Some (VStr "SHOPIFY_FULFILLMENT_FETCH_ERROR")))).
Proof.
  apply (error_code_follows_status GetFulfillments
           (always (Abrupt (JsError "denied (403)"))) (IdNum 5)).
  exact I.
Defined.

(** X6.  A result has one of three key layouts: the six keys of a
    [getFulfillmentOrders] success, the eight keys of a [getFulfillments]
    success, or the seven keys of a failure; a failure never carries
    [rawResponse], [orderId] or [orderName]. *)
Theorem result_key_layout (f : entry_point)
    (callShopifyAdmin : admin_client) (orderId : order_id) :
  only_errors (callShopifyAdmin (request_path f orderId)) ->
  exists r,
    invoke f callShopifyAdmin orderId = Normal (VObj r) /\
    ((lookup "success" r = Some (VBool true) /\
      map fst r =
        match f with
        | GetFulfillmentOrders =>
            ["success"; "httpStatus"; "fulfillments"; "count";
             "fulfillmentIds"; "rawResponse"]
        | GetFulfillments =>
            ["success"; "httpStatus"; "fulfillments"; "count";
             "fulfillmentIds"; "orderId"; "orderName"; "rawResponse"]
        end) \/
     (lookup "success" r = Some (VBool false) /\
      map fst r =
        ["success"; "httpStatus"; "error"; "message"; "fulfillments";
         "count"; "fulfillmentIds"])).
Proof.
  intros Hcall.
  destruct (result_cases f _ _ Hcall)
    as [(response & l & _ & ->) | [(n & m & _ & ->) | (n & m & _ & _ & _ & ->)]].
  - destruct f; (eexists; split; [reflexivity|]; left; split; reflexivity).
  - eexists. split; [reflexivity|]. right. split; reflexivity.
  - eexists. split; [reflexivity|]. right. split; reflexivity.
Qed.

Lemma result_key_layout_witness :
  exists r,
    getFulfillments (always (Normal (VObj []))) (IdNum 5)
      = Normal (VObj r) /\
    ((lookup "success" r = Some (VBool true) /\
      map fst r =
        ["success"; "httpStatus"; "fulfillments"; "count";
         "fulfillmentIds"; "orderId"; "orderName"; "rawResponse"]) \/
     (lookup "success" r = Some (VBool false) /\
      map fst r =
        ["success"; "httpStatus"; "error"; "message"; "fulfillments";
         "count"; "fulfillmentIds"])).
Proof.
  apply (result_key_layout GetFulfillments
           (always (Normal (VObj []))) (IdNum 5)).
  exact I.
Defined.

(* ------------------------------------------------------------------ *)
(** ** Rejections that are not [Error]s *)

(** X7.  When the collaborator throws a value that is not an [Error]:
    if the value has a string [message] property, the call is handled
    exactly as for an [Error] with that message; otherwise reading or
    matching [error.message] throws inside the [catch] clause, and that
    [TypeError] escapes to the caller. *)
Theorem non_error_rejection (f : entry_point)
    (callShopifyAdmin : admin_client) (orderId : order_id) (v : value) :
  callShopifyAdmin (request_path f orderId) = Abrupt (JsValue v) ->
  (forall s, nullish v = false -> prop v "message" = VStr s ->
     invoke f callShopifyAdmin orderId
       = invoke f (always (Abrupt (JsError s))) orderId) /\
  (nullish v = true \/ (forall s, prop v "message" <> VStr s) ->
   exists m, invoke f callShopifyAdmin orderId = Abrupt (JsError m)).
Proof.
  intros Hcall. split.
  - intros s Hn Hm.
    rewrite (handler_invoke (always (Abrupt (JsError s))) orderId s f eq_refl).
    destruct f; unfold invoke, getFulfillmentOrders, getFulfillments,
      request_path in *; rewrite Hcall;
      cbn [try_catch bind error_message];
      rewrite (get_not_nullish v "message" Hn), Hm;
      cbn [bind call_match];
      unfold failure_for, failure_result;
      (destruct (regex_match s) as [ds|]; cbn; [|reflexivity]);
      (destruct (parseInt ds =? 401), (parseInt ds =? 403); cbn;
       try reflexivity);
      unfold or_else; cbn; destruct (parseInt ds =? 0); reflexivity.
  - intros H.
    destruct (nullish v) eqn:Hn.
    + destruct f; unfold invoke, getFulfillmentOrders, getFulfillments,
        request_path in *; rewrite Hcall;
        (destruct v; try discriminate; eexists; reflexivity).
    + destruct H as [H | H]; [discriminate|].
      destruct f; unfold invoke, getFulfillmentOrders, getFulfillments,
        request_path in *; rewrite Hcall;
        cbn [try_catch bind error_message];
        rewrite (get_not_nullish v "message" Hn);
        (destruct (prop v "message") as [| | | |s| |] eqn:Hm;
         [| | | |contradiction (H s); reflexivity| |]);
        eexists; reflexivity.
Qed.

Lemma non_error_rejection_witness :
  getFulfillmentOrders
    (always (Abrupt (JsValue (VObj [("message", VStr "denied (401)")]))))
    (IdNum 5)
  = getFulfillmentOrders (always (Abrupt (JsError "denied (401)")))
      (IdNum 5) /\
  exists m,
    getFulfillments (always (Abrupt (JsValue (VStr "boom")))) (IdNum 5)
    = Abrupt (JsError m).
Proof.
  split.
  - apply (proj1 (non_error_rejection GetFulfillmentOrders
             (always (Abrupt
                (JsValue (VObj [("message", VStr "denied (401)")]))))
             (IdNum 5) (VObj [("message", VStr "denied (401)")]) eq_refl)
             "denied (401)"); reflexivity.
  - apply (proj2 (non_error_rejection GetFulfillments
             (always (Abrupt (JsValue (VStr "boom"))))
             (IdNum 5) (VStr "boom") eq_refl)).
    right. intros s H. discriminate H.
Defined.

(* ------------------------------------------------------------------ *)
(** ** The two functions on the same order *)

Lemma listed_of_order (fs ofs : list (string * value)) :
  lookup "order" fs = Some (VObj ofs) ->
  listed GetFulfillments (VObj fs) = listed GetFulfillmentOrders (VObj ofs).
Proof.
  intros Ho. unfold listed. cbn [prop]. rewrite Ho. reflexivity.
Qed.

(** X9.  If [getFulfillmentOrders] is answered with an object and
    [getFulfillments] with an object whose [order] field is that same
    object, the two results agree on [success], [httpStatus],
    [fulfillments], [count], [fulfillmentIds] and [error]. *)
Theorem same_list_through_order (call1 call2 : admin_client)
    (id1 id2 : order_id) (fs ofs : list (string * value)) :
  call1 (request_path GetFulfillmentOrders id1) = Normal (VObj ofs) ->
  call2 (request_path GetFulfillments id2) = Normal (VObj fs) ->
  lookup "order" fs = Some (VObj ofs) ->
  exists r1 r2,
    getFulfillmentOrders call1 id1 = Normal (VObj r1) /\
    getFulfillments call2 id2 = Normal (VObj r2) /\
    forall k,
      In k ["success"; "httpStatus"; "fulfillments"; "count";
            "fulfillmentIds"; "error"] ->
      lookup k r1 = lookup k r2.
Proof.
  intros H1 H2 Ho.
  pose proof (listed_of_order fs ofs Ho) as Hlisted.
  destruct (response_cases GetFulfillmentOrders _ _ _ H1)
    as [(l & Hn & Hl & Hr1) | (Hbad & m1 & Hr1 & _)].
  - rewrite <- Hlisted in Hl.
    pose proof (invoke_success GetFulfillments _ _ (VObj fs) l H2 eq_refl Hl)
      as Hr2.
    cbn [invoke] in Hr1, Hr2. rewrite Hr1, Hr2.
    eexists; eexists. split; [reflexivity|]. split; [reflexivity|].
    intros k Hk. cbn [In] in Hk.
    repeat (destruct Hk as [<- | Hk]; [reflexivity|]). contradiction.
  - destruct Hbad as [Hbad | Hbad]; [discriminate|].
    rewrite <- Hlisted in Hbad.
    destruct (invoke_failure GetFulfillments _ _ (VObj fs) H2
                (or_intror Hbad)) as (m2 & Hr2 & _).
    cbn [invoke] in Hr1, Hr2. rewrite Hr1, Hr2.
    eexists; eexists. split; [reflexivity|]. split; [reflexivity|].
    intros k Hk. cbn [In] in Hk.
    repeat (destruct Hk as [<- | Hk]; [reflexivity|]). contradiction.
Qed.

Lemma same_list_through_order_witness :
  exists r1 r2,
    getFulfillmentOrders
      (always (Normal (VObj [("fulfillments", VArr [VObj [("id", VNum 1)]])])))
      (IdNum 5) = Normal (VObj r1) /\
    getFulfillments
      (always (Normal (VObj [("order",
         VObj [("fulfillments", VArr [VObj [("id", VNum 1)]])])])))
      (IdNum 5) = Normal (VObj r2) /\
    forall k,
      In k ["success"; "httpStatus"; "fulfillments"; "count";
            "fulfillmentIds"; "error"] ->
      lookup k r1 = lookup k r2.
Proof.
  apply (same_list_through_order
           (always (Normal
              (VObj [("fulfillments", VArr [VObj [("id", VNum 1)]])])))
           (always (Normal (VObj [("order",
              VObj [("fulfillments", VArr [VObj [("id", VNum 1)]])])])))
           (IdNum 5) (IdNum 5)
           [("order", VObj [("fulfillments", VArr [VObj [("id", VNum 1)]])])]
           [("fulfillments", VArr [VObj [("id", VNum 1)]])]);
    reflexivity.
Defined.

(* ------------------------------------------------------------------ *)
(** ** A status printed in decimal is read back *)

Ltac digit_step :=
  cbn [NilEmpty.string_of_uint parse_digits all_digits Pos.of_uint_acc];
  match goal with
  | |- context [is_digit ?c] => change (is_digit c) with true
  end;
  cbv iota;
  match goal with
  | |- context [digit_value ?c] =>
      let v := eval vm_compute in (digit_value c) in
      change (digit_value c) with v
  | _ => idtac
  end.

Lemma parse_digits_uint_acc (d : Decimal.uint) (acc : positive) :
  parse_digits (Z.pos acc) (NilEmpty.string_of_uint d)
    = Z.pos (Pos.of_uint_acc d acc).
Proof.
  revert acc; induction d as [|d IH|d IH|d IH|d IH|d IH|d IH|d IH|d IH|d IH|d IH];
    intros acc; [reflexivity| ..]; digit_step; rewrite <- IH; f_equal; lia.
Qed.

Lemma parse_digits_uint (d : Decimal.uint) :
  parseInt (NilEmpty.string_of_uint d) = Z.of_N (Pos.of_uint d).
Proof.
  unfold parseInt.
  induction d as [|d IH|d IH|d IH|d IH|d IH|d IH|d IH|d IH|d IH|d IH];
    [reflexivity| ..];
    cbn [Pos.of_uint]; digit_step;
    [exact IH | apply parse_digits_uint_acc ..].
Qed.

Lemma all_digits_uint (d : Decimal.uint) :
  all_digits (NilEmpty.string_of_uint d) = true.
Proof.
  induction d; [reflexivity| ..]; exact IHd.
Qed.

(** [parseInt(`${n}`, 10)] is [n], and [`${n}`] is a decimal number. *)
Lemma parseInt_id_text (n : Z) :
  0 <= n -> parseInt (id_text (IdNum n)) = n /\ decimal (id_text (IdNum n)).
Proof.
  intros Hn. destruct n as [|p|p]; [split; [reflexivity|]| |lia].
  { split; [discriminate|reflexivity]. }
  unfold id_text, Z.to_int, NilZero.string_of_int, NilZero.string_of_uint.
  pose proof (DecimalPos.Unsigned.to_uint_nonnil p) as Hnil.
  pose proof (DecimalPos.Unsigned.of_to p) as Hof.
  destruct (Pos.to_uint p) as [|d|d|d|d|d|d|d|d|d|d] eqn:Hd;
    [contradiction Hnil; reflexivity| ..];
    (split;
     [rewrite parse_digits_uint, Hof; reflexivity
     |split; [discriminate|apply all_digits_uint]]).
Qed.

(** X10.  A status [n], an integer from 0 up to 2^53, that the
    collaborator prints in decimal between parentheses, after text
    without a parenthesized number, is read back as [n]: [httpStatus] is
    [n] (500 for [n = 0]), and the error is [SHOPIFY_ADMIN_AUTH_ERROR]
    exactly for 401 and 403. *)
Theorem printed_status_is_read_back (f : entry_point)
    (callShopifyAdmin : admin_client) (orderId : order_id)
    (n : Z) (pre post : string) :
  0 <= n <= 2 ^ 53 ->
  ~ has_paren_number pre ->
  callShopifyAdmin (request_path f orderId)
    = Abrupt (JsError (pre ++ "(" ++ id_text (IdNum n) ++ ")" ++ post)) ->
  exists r,
    invoke f callShopifyAdmin orderId = Normal (VObj r) /\
    lookup "httpStatus" r = Some (VNum (if n =? 0 then 500 else n)) /\
    (lookup "error" r = Some (VStr "SHOPIFY_ADMIN_AUTH_ERROR") <->
     n = 401 \/ n = 403) /\
    (lookup "error" r = Some (VStr "SHOPIFY_FULFILLMENT_FETCH_ERROR") <->
     n <> 401 /\ n <> 403).
Proof.
  intros [Hn _] Hpre Hcall.
  destruct (parseInt_id_text n Hn) as [Hparse Hdec].
  rewrite (handler_invoke _ _ _ f Hcall). unfold failure_for.
  rewrite (regex_match_first pre (id_text (IdNum n)) post
             (proj2 (regex_match_none_iff pre) Hpre) Hdec).
  cbv zeta. rewrite Hparse.
  destruct (Z.eqb_spec n 401) as [H1|H1].
  { eexists. split; [reflexivity|]. split; [subst n; reflexivity|].
    split; split.
    - intros _. left. exact H1.
    - intros _. reflexivity.
    - intros H. discriminate H.
    - intros [H _]. contradiction. }
  destruct (Z.eqb_spec n 403) as [H3|H3].
  { eexists. split; [reflexivity|]. split; [subst n; reflexivity|].
    split; split.
    - intros _. right. exact H3.
    - intros _. reflexivity.
    - intros H. discriminate H.
    - intros [_ H]. contradiction. }
  cbn [orb]. eexists. split; [reflexivity|]. split; [reflexivity|].
  split; split.
  - intros H. discriminate H.
  - intros [H | H]; contradiction.
  - intros _. split; assumption.
  - intros _. reflexivity.
Qed.

Lemma printed_status_is_read_back_witness :
  exists r,
    getFulfillmentOrders
      (always (Abrupt (JsError "Shopify Admin API error (429): Too Many")))
      (IdNum 5) = Normal (VObj r) /\
    lookup "httpStatus" r = Some (VNum 429) /\
    (lookup "error" r = Some (VStr "SHOPIFY_ADMIN_AUTH_ERROR") <->
     429 = 401 \/ 429 = 403) /\
    (lookup "error" r = Some (VStr "SHOPIFY_FULFILLMENT_FETCH_ERROR") <->
     429 <> 401 /\ 429 <> 403).
Proof.
  apply (printed_status_is_read_back GetFulfillmentOrders
           (always (Abrupt
              (JsError "Shopify Admin API error (429): Too Many")))
           (IdNum 5) 429 "Shopify Admin API error " ": Too Many").
  - split; discriminate.
  - apply regex_match_none_iff. reflexivity.
  - reflexivity.
Defined.
